(** * SweetShopMa back office: the Django REST views over a relational store

    A shallow embedding of [web-app/backend/api]: the models of
    [models.py] as records, the tables of the store as lists of rows, and
    the view methods of [views.py] as functions from a request and a store
    to a response and a store.

    Modelling boundary.  Decimal values are Python [decimal.Decimal]
    numbers (finite ones: a signed coefficient and an exponent) with the
    arithmetic of the default context (28 significant digits, round half
    even).  The store keeps a decimal exactly as the view assigned it: the
    per-column quantisation that a database backend applies on write is not
    part of the source and is not modelled.  Audit timestamps that no view
    reads ([created_at], [updated_at], [created_date]) are left out of the
    records.  A view runs to its end on the store it is given; an exception
    that the view does not catch is an answer with status 500. *)

From Stdlib Require Import ZArith List String Ascii Bool Lia.
Import ListNotations.
Local Open Scope string_scope.
Local Open Scope Z_scope.

(** ** Python values *)

(** [decimal.Decimal]: the number [coef * 10 ^ dexp]. *)
Record Decimal : Type := mkDecimal { coef : Z; dexp : Z }.

(** [Decimal('0')], which is also what the integer [0] converts to. *)
Definition D0 : Decimal := mkDecimal 0 0.

(** [Decimal('0.00')]. *)
Definition D0_00 : Decimal := mkDecimal 0 (-2).

(** [Decimal(n)] for a Python integer [n]. *)
Definition Decimal_of_int (n : Z) : Decimal := mkDecimal n 0.

(** Precision of the default context. *)
Definition prec : Z := 28.

(** [len(self._int)]: the number of decimal digits of the magnitude. *)
Definition ndigits (n : Z) : Z :=
  match n with
  | Z0 => 1
  | Zpos p | Zneg p => Z.of_nat (Decimal.nb_digits (Pos.to_uint p))
  end.

(** Rounding a magnitude to drop its last [k] digits, half to even. *)
Definition round_half_even (m k : Z) : Z :=
  let p := 10 ^ k in
  let q := m / p in
  let r := m mod p in
  if (p <? 2 * r) || ((p =? 2 * r) && Z.odd q) then q + 1 else q.

(** [Decimal._fix]: round to the precision of the context. *)
Definition fix_ (d : Decimal) : Decimal :=
  let n := ndigits (coef d) in
  if n <=? prec then d
  else
    let k := n - prec in
    let m := round_half_even (Z.abs (coef d)) k in
    let '(m, e) := if prec <? ndigits m then (m / 10, dexp d + k + 1)
                   else (m, dexp d + k) in
    mkDecimal (Z.sgn (coef d) * m) e.

(** The two coefficients at the smaller of the two exponents. *)
Definition align (a b : Decimal) : Z * Z * Z :=
  let e := Z.min (dexp a) (dexp b) in
  (coef a * 10 ^ (dexp a - e), coef b * 10 ^ (dexp b - e), e).

(** [a + b]. *)
Definition dadd (a b : Decimal) : Decimal :=
  let '(x, y, e) := align a b in fix_ (mkDecimal (x + y) e).

Definition dneg (a : Decimal) : Decimal := mkDecimal (- coef a) (dexp a).

(** [a - b], which Python computes as [a + (-b)]. *)
Definition dsub (a b : Decimal) : Decimal := dadd a (dneg b).

(** [a * b]. *)
Definition dmul (a b : Decimal) : Decimal :=
  fix_ (mkDecimal (coef a * coef b) (dexp a + dexp b)).

(** Numeric comparison. *)
Definition dcmp (a b : Decimal) : comparison :=
  let '(x, y, _) := align a b in x ?= y.

Definition dle (a b : Decimal) : bool :=
  match dcmp a b with Gt => false | _ => true end.

Definition dgt (a b : Decimal) : bool :=
  match dcmp a b with Gt => true | _ => false end.

Definition dlt (a b : Decimal) : bool :=
  match dcmp a b with Lt => true | _ => false end.

(** [bool(d)]: a decimal is falsy exactly when it is zero. *)
Definition dtruthy (a : Decimal) : bool := negb (coef a =? 0).

(** [int(d)]: truncation towards zero. *)
Definition int_of_Decimal (a : Decimal) : Z :=
  if 0 <=? dexp a then coef a * 10 ^ dexp a
  else Z.quot (coef a) (10 ^ (- dexp a)).

(** Dropping trailing zeros of an exact quotient while the exponent is
    below the ideal one (the [while] loop of [Decimal.__truediv__]). *)
Fixpoint strip_to_ideal (fuel : nat) (c e ideal : Z) : Z * Z :=
  match fuel with
  | O => (c, e)
  | S fuel' =>
      if (e <? ideal) && (c mod 10 =? 0)
      then strip_to_ideal fuel' (c / 10) (e + 1) ideal
      else (c, e)
  end.

(** [a / b]; [None] stands for the [DivisionByZero] (or
    [DivisionUndefined]) exception. *)
Definition ddiv (a b : Decimal) : option Decimal :=
  if coef b =? 0 then None
  else
    let sign := Z.sgn (coef a) * Z.sgn (coef b) in
    if coef a =? 0 then Some (fix_ (mkDecimal 0 (dexp a - dexp b)))
    else
      let shift := ndigits (coef b) - ndigits (coef a) + prec + 1 in
      let e := dexp a - dexp b - shift in
      let x := Z.abs (coef a) in
      let y := Z.abs (coef b) in
      let '(c, r) := if 0 <=? shift then Z.div_eucl (x * 10 ^ shift) y
                     else Z.div_eucl x (y * 10 ^ (- shift)) in
      let '(c, e) :=
        if negb (r =? 0) then ((if c mod 5 =? 0 then c + 1 else c), e)
        else strip_to_ideal (Z.to_nat (Z.max 0 shift)) c e (dexp a - dexp b) in
      Some (fix_ (mkDecimal (sign * c) e)).

(** The built-in [sum] over decimals: it starts from the integer [0]. *)
Definition py_sum (l : list Decimal) : Decimal := fold_left dadd l D0.

(** The built-in [sum] over integers. *)
Definition int_sum (l : list Z) : Z := fold_left Z.add l 0.

(** [a or b] on strings: the empty string is falsy. *)
Definition str_or (a b : string) : string :=
  match a with EmptyString => b | _ => a end.

(** [str.lower] on ASCII text. *)
Definition lower_ascii (c : ascii) : ascii :=
  let n := nat_of_ascii c in
  if (Nat.leb 65 n && Nat.leb n 90)%bool then ascii_of_nat (n + 32)%nat else c.

Fixpoint lower (s : string) : string :=
  match s with
  | EmptyString => EmptyString
  | String c s' => String (lower_ascii c) (lower s')
  end.

(** [needle in s]. *)
Fixpoint contains (needle s : string) : bool :=
  if String.prefix needle s then true
  else match s with
       | EmptyString => false
       | String _ s' => contains needle s'
       end.

(** ** Models ([models.py]) *)

(** Primary keys. *)
Definition pk : Type := Z.

(** Timestamps ([DateTimeField]), in seconds. *)
Definition datetime : Type := Z.

(** [timedelta(days=n)]. *)
Definition timedelta_days (n : Z) : Z := n * 86400.

(** [DateField] values. *)
Record date : Type := mkDate { year : Z; month : Z; day : Z }.

Definition date_eqb (a b : date) : bool :=
  (year a =? year b) && (month a =? month b) && (day a =? day b).

(** [TimeField] values. *)
Record time : Type := mkTime { hour : Z; minute : Z; second : Z }.

Module User.
Record t : Type := mk {
  id : pk;
  username : string;
  role : string;
  name : string;
  monthly_salary : Decimal;
  is_enabled : bool
}.

Definition is_developer (u : t) : bool := String.eqb (role u) "Developer".
Definition is_admin (u : t) : bool := String.eqb (role u) "Admin".
Definition is_moderator (u : t) : bool := String.eqb (role u) "Moderator".
Definition is_user (u : t) : bool := String.eqb (role u) "User".

Definition can_manage_users (u : t) : bool := is_developer u || is_admin u.
Definition can_manage_stock (u : t) : bool :=
  is_developer u || is_admin u || is_moderator u.
Definition can_use_attendance_tracker (u : t) : bool :=
  is_developer u || is_admin u || is_moderator u.
Definition can_restock (u : t) : bool :=
  is_developer u || is_admin u || is_moderator u.

(** [user.name or user.username], the denormalised display name. *)
Definition display_name (u : t) : string := str_or (name u) (username u).
End User.

Module Product.
Record t : Type := mk {
  id : pk;
  name : string;
  emoji : string;
  barcode : string;
  price : Decimal;
  stock : Decimal;
  is_sold_by_weight : bool
}.

Definition unit_label (p : t) : string :=
  if is_sold_by_weight p then "KGS" else "PCS".

Definition with_stock (p : t) (s : Decimal) : t :=
  mk (id p) (name p) (emoji p) (barcode p) (price p) s (is_sold_by_weight p).
End Product.

Module CartItem.
Record t : Type := mk {
  id : pk;
  user : pk;
  product : pk;
  quantity : Decimal
}.

Definition with_quantity (c : t) (q : Decimal) : t :=
  mk (id c) (user c) (product c) q.
End CartItem.

Module Order.
Record t : Type := mk {
  id : pk;
  user : option pk;
  user_name : string;
  order_date : datetime;
  total : Decimal;
  item_count : Z;
  status : string
}.
End Order.

Module OrderItem.
Record t : Type := mk {
  id : pk;
  order : pk;
  product : option pk;
  product_name : string;
  product_emoji : string;
  price : Decimal;
  quantity : Decimal;
  is_sold_by_weight : bool
}.

Definition item_total (i : t) : Decimal := dmul (price i) (quantity i).
End OrderItem.

Module AttendanceRecord.
Record t : Type := mk {
  id : pk;
  user : pk;
  user_name : string;
  date_ : date;
  status : string;
  is_present : bool;
  regular_hours : Decimal;
  overtime_hours : Decimal;
  daily_pay : Decimal;
  check_in_time : option time;
  check_out_time : option time;
  notes : string
}.

Definition total_hours (r : t) : Decimal :=
  dadd (regular_hours r) (overtime_hours r).
End AttendanceRecord.

Module RestockRecord.
Record t : Type := mk {
  id : pk;
  product : pk;
  product_name : string;
  product_emoji : string;
  quantity_added : Decimal;
  stock_before : Decimal;
  stock_after : Decimal;
  user : option pk;
  user_name : string;
  restock_date : datetime
}.
End RestockRecord.

(** ** The relational store: one list of rows per table. *)
Record DB : Type := mkDB {
  users : list User.t;
  products : list Product.t;
  cart_items : list CartItem.t;
  orders : list Order.t;
  order_items : list OrderItem.t;
  attendance_records : list AttendanceRecord.t;
  restock_records : list RestockRecord.t
}.

(** The key of a fresh row: one more than the largest key of the table. *)
Definition next_id (ids : list pk) : pk := fold_right Z.max 0 ids + 1.

(** [Product.objects.get(id=...)] / the foreign-key access
    [cart_item.product]; [None] stands for [DoesNotExist]. *)
Definition get_product (i : pk) (db : DB) : option Product.t :=
  find (fun p => Product.id p =? i) (products db).

(** [product.save()]: the row with the product's key is overwritten. *)
Definition save_product (p : Product.t) (db : DB) : DB :=
  mkDB (users db)
       (map (fun x => if Product.id x =? Product.id p then p else x) (products db))
       (cart_items db) (orders db) (order_items db)
       (attendance_records db) (restock_records db).

(** [CartItem.item_total]: the live price of the product times the quantity;
    [None] when the product row is gone. *)
Definition item_total (c : CartItem.t) (db : DB) : option Decimal :=
  match get_product (CartItem.product c) db with
  | Some p => Some (dmul (Product.price p) (CartItem.quantity c))
  | None => None
  end.

(** ** Responses *)

Inductive Body (A : Type) : Type :=
| Data (a : A)
| Error (msg : string).
Arguments Data {A} a.
Arguments Error {A} msg.

(** [Response(data, status=...)]. *)
Record Response (A : Type) : Type := mkResponse {
  data : Body A;
  status_code : Z
}.
Arguments mkResponse {A} data status_code.
Arguments data {A} r.
Arguments status_code {A} r.

Definition HTTP_200_OK : Z := 200.
Definition HTTP_201_CREATED : Z := 201.
Definition HTTP_400_BAD_REQUEST : Z := 400.
Definition HTTP_401_UNAUTHORIZED : Z := 401.
Definition HTTP_403_FORBIDDEN : Z := 403.
Definition HTTP_404_NOT_FOUND : Z := 404.
Definition HTTP_409_CONFLICT : Z := 409.
Definition HTTP_500_INTERNAL_SERVER_ERROR : Z := 500.

(** ** Permission classes ([views.py], lines 20-29) *)

(** [request.user]: [None] when the request carries no user. *)
Module IsDeveloperOrAdmin.
Definition has_permission (request_user : option User.t) : bool :=
  match request_user with
  | Some u => User.is_developer u || User.is_admin u
  | None => false
  end.
End IsDeveloperOrAdmin.

Module IsDeveloperAdminOrModerator.
Definition has_permission (request_user : option User.t) : bool :=
  match request_user with
  | Some u => User.is_developer u || User.is_admin u || User.is_moderator u
  | None => false
  end.
End IsDeveloperAdminOrModerator.

(** The framework's gate in front of a view method: with the permission
    the handler runs; without it the request is answered 403 for a known
    user and 401 for none, and the handler does not run. *)
Definition check_permissions {A : Type} (permission : option User.t -> bool)
    (request_user : option User.t) (handler : DB -> Response A * DB)
    (db : DB) : Response A * DB :=
  if permission request_user then handler db
  else match request_user with
       | Some _ =>
           (mkResponse (Error "You do not have permission to perform this action.")
                       HTTP_403_FORBIDDEN, db)
       | None =>
           (mkResponse (Error "Authentication credentials were not provided.")
                       HTTP_401_UNAUTHORIZED, db)
       end.

(** ** [ProductViewSet] ([views.py], lines 89-128) *)

Module ProductViewSet.

(** The JSON body of a successful restock. *)
Record RestockData : Type := mkRestockData {
  stock : Decimal;
  quantity_added : Decimal
}.

(** [restock(request, pk)].  [quantity] is the decimal read from the request
    body, [None] when the key is absent (the default is then [0]). *)
Definition restock (request_user : User.t) (pk_ : pk)
    (quantity : option Decimal) (now : datetime) (db : DB)
    : Response RestockData * DB :=
  match get_product pk_ db with
  | None => (mkResponse (Error "Not found.") HTTP_404_NOT_FOUND, db)
  | Some product =>
      let quantity := match quantity with Some q => q | None => D0 end in
      if dle quantity D0 then
        (mkResponse (Error "Quantity must be greater than 0")
                    HTTP_400_BAD_REQUEST, db)
      else
        let stock_before := Product.stock product in
        let product := Product.with_stock product
                         (dadd (Product.stock product) quantity) in
        let db := save_product product db in
        let record :=
          RestockRecord.mk
            (next_id (map RestockRecord.id (restock_records db)))
            (Product.id product)
            (Product.name product)
            (Product.emoji product)
            quantity
            stock_before
            (Product.stock product)
            (Some (User.id request_user))
            (User.display_name request_user)
            now in
        let db := mkDB (users db) (products db) (cart_items db) (orders db)
                       (order_items db) (attendance_records db)
                       (restock_records db ++ [record]) in
        (mkResponse (Data (mkRestockData (Product.stock product) quantity))
                    HTTP_200_OK, db)
  end.

End ProductViewSet.

(** ** [CartViewSet] ([views.py], lines 131-171) *)

Module CartViewSet.

(** [get_queryset]: the cart rows of the requesting user. *)
Definition get_queryset (request_user : User.t) (db : DB) : list CartItem.t :=
  filter (fun c => CartItem.user c =? User.id request_user) (cart_items db).

(** The cart rows of one user for one product. *)
Definition matching_rows (user product : pk) (db : DB) : list CartItem.t :=
  filter (fun c => (CartItem.user c =? user) && (CartItem.product c =? product))
         (cart_items db).

(** [CartItem.objects.get_or_create(user=..., product=..., defaults=...)]:
    the row and the store, with [true] when the row was created; [None]
    stands for [MultipleObjectsReturned]. *)
Definition get_or_create (user product : pk) (quantity : Decimal) (db : DB)
    : option (CartItem.t * bool * DB) :=
  match matching_rows user product db with
  | [] =>
      let c := CartItem.mk (next_id (map CartItem.id (cart_items db)))
                           user product quantity in
      Some (c, true,
            mkDB (users db) (products db) (cart_items db ++ [c]) (orders db)
                 (order_items db) (attendance_records db) (restock_records db))
  | [c] => Some (c, false, db)
  | _ :: _ :: _ => None
  end.

(** [cart_item.save()]. *)
Definition save_cart_item (c : CartItem.t) (db : DB) : DB :=
  mkDB (users db) (products db)
       (map (fun x => if CartItem.id x =? CartItem.id c then c else x)
            (cart_items db))
       (orders db) (order_items db) (attendance_records db)
       (restock_records db).

(** [create(request)]: add an item to the cart.  [product_id] and
    [quantity] are read from the request body; an absent quantity is [1]. *)
Definition create (request_user : User.t) (product_id : option pk)
    (quantity : option Decimal) (db : DB) : Response CartItem.t * DB :=
  let quantity := match quantity with
                  | Some q => q
                  | None => Decimal_of_int 1
                  end in
  match match product_id with
        | Some i => get_product i db
        | None => None
        end with
  | None => (mkResponse (Error "Product not found") HTTP_404_NOT_FOUND, db)
  | Some product =>
      match get_or_create (User.id request_user) (Product.id product)
                          quantity db with
      | None =>
          (mkResponse (Error "MultipleObjectsReturned")
                      HTTP_500_INTERNAL_SERVER_ERROR, db)
      | Some (cart_item, created, db) =>
          if negb created then
            let new_quantity := dadd (CartItem.quantity cart_item) quantity in
            if dgt new_quantity (Product.stock product) then
              (mkResponse (Error "Insufficient stock") HTTP_400_BAD_REQUEST, db)
            else
              let cart_item := CartItem.with_quantity cart_item new_quantity in
              (mkResponse (Data cart_item) HTTP_201_CREATED,
               save_cart_item cart_item db)
          else
            (mkResponse (Data cart_item) HTTP_201_CREATED, db)
      end
  end.

(** [total(request)]: the sum of the item totals of the user's cart;
    [None] when a product row is gone. *)
Fixpoint item_totals (rows : list CartItem.t) (db : DB) : option (list Decimal) :=
  match rows with
  | [] => Some []
  | c :: rows' =>
      match item_total c db, item_totals rows' db with
      | Some t, Some ts => Some (t :: ts)
      | _, _ => None
      end
  end.

Definition total (request_user : User.t) (db : DB) : Response Decimal :=
  match item_totals (get_queryset request_user db) db with
  | Some ts => mkResponse (Data (py_sum ts)) HTTP_200_OK
  | None => mkResponse (Error "DoesNotExist") HTTP_500_INTERNAL_SERVER_ERROR
  end.

End CartViewSet.

(** ** [OrderViewSet] ([views.py], lines 174-226) *)

Module OrderViewSet.

(** The serialised order: the row and its line items. *)
Record OrderData : Type := mkOrderData {
  order : Order.t;
  items : list OrderItem.t
}.

(** Evaluating [item.item_total] on every cart row loads [item.product]
    once and keeps it on the row object; [None] when a product row is
    gone. *)
Fixpoint load_products (rows : list CartItem.t) (db : DB)
    : option (list (CartItem.t * Product.t)) :=
  match rows with
  | [] => Some []
  | c :: rows' =>
      match get_product (CartItem.product c) db, load_products rows' db with
      | Some p, Some l => Some ((c, p) :: l)
      | _, _ => None
      end
  end.

(** [OrderItem.objects.create(...)] for one cart row. *)
Definition create_order_item (order_id : pk) (cart_item : CartItem.t)
    (product : Product.t) (db : DB) : DB :=
  let i := OrderItem.mk (next_id (map OrderItem.id (order_items db)))
                        order_id
                        (Some (Product.id product))
                        (Product.name product)
                        (Product.emoji product)
                        (Product.price product)
                        (CartItem.quantity cart_item)
                        (Product.is_sold_by_weight product) in
  mkDB (users db) (products db) (cart_items db) (orders db)
       (order_items db ++ [i]) (attendance_records db) (restock_records db).

(** One turn of the loop of lines 207-220. *)
Definition checkout_step (order_id : pk) (db : DB)
    (row : CartItem.t * Product.t) : DB :=
  let '(cart_item, product) := row in
  let db := create_order_item order_id cart_item product db in
  save_product
    (Product.with_stock product
       (dsub (Product.stock product) (CartItem.quantity cart_item)))
    db.

(** [cart_items.delete()]. *)
Definition delete_cart (user : pk) (db : DB) : DB :=
  mkDB (users db) (products db)
       (filter (fun c => negb (CartItem.user c =? user)) (cart_items db))
       (orders db) (order_items db) (attendance_records db)
       (restock_records db).

(** [checkout(request)]: create an order from the cart. *)
Definition checkout (request_user : User.t) (now : datetime) (db : DB)
    : Response OrderData * DB :=
  let cart_items_ :=
    filter (fun c => CartItem.user c =? User.id request_user) (cart_items db) in
  match cart_items_ with
  | [] => (mkResponse (Error "Cart is empty") HTTP_400_BAD_REQUEST, db)
  | _ :: _ =>
      match load_products cart_items_ db with
      | None =>
          (mkResponse (Error "DoesNotExist") HTTP_500_INTERNAL_SERVER_ERROR, db)
      | Some rows =>
          let total :=
            py_sum (map (fun r => dmul (Product.price (snd r))
                                       (CartItem.quantity (fst r))) rows) in
          let item_count :=
            int_sum (map (fun r => int_of_Decimal (CartItem.quantity (fst r)))
                         rows) in
          let order_ :=
            Order.mk (next_id (map Order.id (orders db)))
                     (Some (User.id request_user))
                     (User.display_name request_user)
                     now total item_count "Completed" in
          let db := mkDB (users db) (products db) (cart_items db)
                         (orders db ++ [order_]) (order_items db)
                         (attendance_records db) (restock_records db) in
          let db := fold_left (checkout_step (Order.id order_)) rows db in
          let db := delete_cart (User.id request_user) db in
          (mkResponse
             (Data (mkOrderData order_
                      (filter (fun i => OrderItem.order i =? Order.id order_)
                              (order_items db))))
             HTTP_201_CREATED, db)
      end
  end.

(** [Order.Meta.ordering = ['-order_date']]: newest first; orders of the
    same instant keep the order of the table. *)
Fixpoint insert_newest_first (o : Order.t) (l : list Order.t) : list Order.t :=
  match l with
  | [] => [o]
  | h :: l' =>
      if Order.order_date h <=? Order.order_date o then o :: l
      else h :: insert_newest_first o l'
  end.

Definition newest_first (l : list Order.t) : list Order.t :=
  fold_right insert_newest_first [] l.

(** [get_queryset]: every order for who can manage the stock, the own
    orders for the others. *)
Definition get_queryset (request_user : User.t) (db : DB) : list Order.t :=
  if User.can_manage_stock request_user then newest_first (orders db)
  else newest_first
         (filter (fun o => match Order.user o with
                           | Some i => i =? User.id request_user
                           | None => false
                           end)
                 (orders db)).

End OrderViewSet.

(** ** [AttendanceRecordViewSet] ([views.py], lines 229-349) *)

Module AttendanceRecordViewSet.

(** The fields of the request body that the view reads itself. *)
Record Request : Type := mkRequest {
  req_user_id : option pk;
  req_date : option string;
  req_rest : list (string * string)
}.

(** [serializer.validated_data]; a field the request left out is [None]
    and takes the default of its column. *)
Record ValidatedData : Type := mkValidatedData {
  v_user : User.t;
  v_user_name : option string;
  v_date : date;
  v_status : option string;
  v_is_present : option bool;
  v_regular_hours : option Decimal;
  v_overtime_hours : option Decimal;
  v_daily_pay : option Decimal;
  v_check_in_time : option time;
  v_check_out_time : option time;
  v_notes : option string
}.

(** [serializer.errors]: field names with their messages, in order. *)
Definition Errors : Type := list (string * list string).

(** [django.db.IntegrityError], with the text of the database. *)
Inductive IntegrityError : Type := mkIntegrityError (msg : string).

Definition default {A : Type} (o : option A) (d : A) : A :=
  match o with Some a => a | None => d end.

(** [f'{date}'] for the raw value of the request. *)
Definition format_date (d : option string) : string := default d "None".

Definition conflict_message (d : option string) : string :=
  "Attendance record already exists for this employee on " ++ format_date d.

(** The first message of the serializer's errors (lines 270-283). *)
Fixpoint first_error (errors : Errors) : string :=
  match errors with
  | [] => "Validation error"
  | (field, []) :: errors' => first_error errors'
  | (field, e :: _) :: _ => field ++ ": " ++ e
  end.

Section Create.

(** What the view takes from the framework and the database: how a date
    string is read, the validation of the serializer, and the text the
    database puts in the error of a violated uniqueness constraint. *)
Variable parse_date : string -> option date.
Variable is_valid : Request -> DB -> Errors + ValidatedData.
Variable unique_violation_message : string.

(** [AttendanceRecord.objects.create(...)]: the table enforces
    [unique_together = ['user', 'date']]. *)
Definition objects_create (r : AttendanceRecord.t) (db : DB)
    : IntegrityError + DB :=
  if existsb (fun x => (AttendanceRecord.user x =? AttendanceRecord.user r)
                       && date_eqb (AttendanceRecord.date_ x)
                                   (AttendanceRecord.date_ r))
             (attendance_records db)
  then inl (mkIntegrityError unique_violation_message)
  else inr (mkDB (users db) (products db) (cart_items db) (orders db)
                 (order_items db) (attendance_records db ++ [r])
                 (restock_records db)).

(** [AttendanceRecordSerializer.create] ([serializers.py], lines 100-108). *)
Definition serializer_create (v : ValidatedData) (db : DB)
    : IntegrityError + (AttendanceRecord.t * DB) :=
  let user := v_user v in
  let user_name := default (v_user_name v) (User.display_name user) in
  let r := AttendanceRecord.mk
             (next_id (map AttendanceRecord.id (attendance_records db)))
             (User.id user) user_name (v_date v)
             (default (v_status v) "Present")
             (default (v_is_present v) true)
             (default (v_regular_hours v) D0_00)
             (default (v_overtime_hours v) D0_00)
             (default (v_daily_pay v) D0_00)
             (v_check_in_time v) (v_check_out_time v)
             (default (v_notes v) "") in
  match objects_create r db with
  | inl e => inl e
  | inr db' => inr (r, db')
  end.

(** Lines 251-264: the duplicate check before validation; [Some] is the
    response that ends the request.  The check is skipped when the user id
    or the date is falsy, and a date that cannot be read makes the query
    raise, which the view swallows. *)
Definition create_precheck (request : Request) (db : DB)
    : option (Response AttendanceRecord.t) :=
  match req_user_id request, req_date request with
  | Some user_id, Some date =>
      if negb (user_id =? 0) && negb (String.eqb date "") then
        match parse_date date with
        | Some d =>
            match find (fun x => (AttendanceRecord.user x =? user_id)
                                 && date_eqb (AttendanceRecord.date_ x) d)
                       (attendance_records db) with
            | Some _ =>
                Some (mkResponse (Error (conflict_message (req_date request)))
                                 HTTP_409_CONFLICT)
            | None => None
            end
        | None => None
        end
      else None
  | _, _ => None
  end.

(** Lines 266-312: validation and the write.  This is what runs once the
    check above let the request through; applied to the store as it is at
    the time of the write, it also covers a record that arrived after the
    check.  The only failure of the write in this model is the violated
    constraint, so the last handler (lines 308-312) has no case here. *)
Definition create_save (request : Request) (db : DB)
    : Response AttendanceRecord.t * DB :=
  match is_valid request db with
  | inl errors =>
      (mkResponse (Error (first_error errors)) HTTP_400_BAD_REQUEST, db)
  | inr v =>
      match serializer_create v db with
      | inr (r, db') => (mkResponse (Data r) HTTP_201_CREATED, db')
      | inl (mkIntegrityError e) =>
          if contains "unique" (lower e) || contains "duplicate" (lower e) then
            (mkResponse (Error (conflict_message (req_date request)))
                        HTTP_409_CONFLICT, db)
          else
            (mkResponse
               (Error "Database error occurred while creating attendance record")
               HTTP_400_BAD_REQUEST, db)
      end
  end.

(** [create(request)]. *)
Definition create (request : Request) (db : DB)
    : Response AttendanceRecord.t * DB :=
  match create_precheck request db with
  | Some response => (response, db)
  | None => create_save request db
  end.

End Create.

(** One element of the monthly summary. *)
Record Summary : Type := mkSummary {
  user_id : pk;
  user_name : string;
  present_days : Z;
  absent_days : Z;
  total_hours : Decimal;
  total_pay : Decimal
}.

(** The records of one user in one month (lines 329-333). *)
Definition month_records (user : User.t) (year_ month_ : Z) (db : DB)
    : list AttendanceRecord.t :=
  filter (fun r => (AttendanceRecord.user r =? User.id user)
                   && (year (AttendanceRecord.date_ r) =? year_)
                   && (month (AttendanceRecord.date_ r) =? month_))
         (attendance_records db).

(** The body of the loop of lines 328-347. *)
Definition summarize (year_ month_ : Z) (db : DB) (user : User.t) : Summary :=
  let records := month_records user year_ month_ db in
  mkSummary
    (User.id user)
    (User.display_name user)
    (Z.of_nat (List.length (filter AttendanceRecord.is_present records)))
    (Z.of_nat (List.length (filter (fun r => negb (AttendanceRecord.is_present r))
                              records)))
    (py_sum (map AttendanceRecord.total_hours records))
    (py_sum (map AttendanceRecord.daily_pay records)).

(** [monthly_summary(request)].  [month_param] is the [month] query
    parameter read as year and month, [None] when it is absent; [today] is
    the current date. *)
Definition monthly_summary (month_param : option (Z * Z)) (today : date)
    (db : DB) : Response (list Summary) :=
  let '(year_, month_) :=
    match month_param with
    | Some ym => ym
    | None => (year today, month today)
    end in
  let users_ := filter User.is_enabled (users db) in
  mkResponse (Data (map (summarize year_ month_ db) users_)) HTTP_200_OK.

End AttendanceRecordViewSet.

(** ** [ReportsView] ([views.py], lines 359-397) *)

Module ReportsView.

(** [aggregate(total=Sum(...))['total']]: [None] over no rows. *)
Definition Sum (l : list Decimal) : option Decimal :=
  match l with
  | [] => None
  | x :: l' => Some (fold_left dadd l' x)
  end.

(** [x or Decimal('0.00')]: [None] and zero are falsy. *)
Definition or_zero (x : option Decimal) : Decimal :=
  match x with
  | Some d => if dtruthy d then d else D0_00
  | None => D0_00
  end.

(** One row of [top_products]. *)
Record TopProduct : Type := mkTopProduct {
  product_name : string;
  product_emoji : string;
  total_sold : Decimal
}.

(** [values('product_name', 'product_emoji').annotate(total_sold=Sum(...))]:
    one group per name and emoji, in order of first appearance. *)
Fixpoint add_to_group (i : OrderItem.t) (groups : list TopProduct)
    : list TopProduct :=
  match groups with
  | [] => [mkTopProduct (OrderItem.product_name i) (OrderItem.product_emoji i)
                        (OrderItem.quantity i)]
  | g :: groups' =>
      if String.eqb (product_name g) (OrderItem.product_name i)
         && String.eqb (product_emoji g) (OrderItem.product_emoji i)
      then mkTopProduct (product_name g) (product_emoji g)
                        (dadd (total_sold g) (OrderItem.quantity i)) :: groups'
      else g :: add_to_group i groups'
  end.

Definition group_by_product (l : list OrderItem.t) : list TopProduct :=
  fold_left (fun groups i => add_to_group i groups) l [].

(** [order_by('-total_sold')], keeping the order of equal totals. *)
Fixpoint insert_desc (g : TopProduct) (l : list TopProduct) : list TopProduct :=
  match l with
  | [] => [g]
  | h :: l' =>
      if dgt (total_sold g) (total_sold h) then g :: l
      else h :: insert_desc g l'
  end.

Definition order_by_total_sold_desc (l : list TopProduct) : list TopProduct :=
  fold_left (fun sorted g => insert_desc g sorted) l [].

(** The JSON body of the report. *)
Record Report : Type := mkReport {
  total_sales : Decimal;
  total_orders : Z;
  average_order_value : Decimal;
  total_items_sold : Decimal;
  last_7_days_sales : Decimal;
  top_products : list TopProduct
}.

(** [get(request)]; a [DivisionByZero] raised by the average would end the
    request with status 500. *)
Definition get (now : datetime) (db : DB) : Response Report :=
  let total_sales := or_zero (Sum (map Order.total (orders db))) in
  let total_orders := Z.of_nat (List.length (orders db)) in
  match (if 0 <? total_orders
         then ddiv total_sales (Decimal_of_int total_orders)
         else Some D0_00) with
  | None =>
      mkResponse (Error "DivisionByZero") HTTP_500_INTERNAL_SERVER_ERROR
  | Some avg_order_value =>
      let total_items_sold :=
        or_zero (Sum (map OrderItem.quantity (order_items db))) in
      let seven_days_ago := now - timedelta_days 7 in
      let last_7_days_sales :=
        or_zero (Sum (map Order.total
                          (filter (fun o => seven_days_ago <=? Order.order_date o)
                                  (orders db)))) in
      let top_products :=
        firstn 10 (order_by_total_sold_desc
                     (group_by_product (order_items db))) in
      mkResponse
        (Data (mkReport total_sales total_orders avg_order_value
                        total_items_sold last_7_days_sales top_products))
        HTTP_200_OK
  end.

(** The endpoint behind its permission class (line 361). *)
Definition endpoint (request_user : option User.t) (now : datetime) (db : DB)
    : Response Report * DB :=
  check_permissions IsDeveloperAdminOrModerator.has_permission request_user
                    (fun db => (get now db, db)) db.

End ReportsView.

(** ** [AuthView] ([views.py], lines 32-62) *)

Module AuthView.

(** The JSON body of a successful login. *)
Record LoginData : Type := mkLoginData {
  refresh : string;
  access : string;
  user : User.t
}.

(** A value of the request body is falsy when it is absent or empty. *)
Definition falsy (s : option string) : bool :=
  match s with
  | None => true
  | Some s => String.eqb s ""
  end.

Section Login.

(** The framework's check of the credentials and its issue of the two
    tokens for a user. *)
Variable authenticate : string -> string -> option User.t.
Variable for_user : User.t -> string * string.

(** [post(request)]: login. *)
Definition post (username password : option string) : Response LoginData :=
  if falsy username || falsy password then
    mkResponse (Error "Username and password required") HTTP_400_BAD_REQUEST
  else
    match username, password with
    | Some username, Some password =>
        match authenticate username password with
        | Some user =>
            if User.is_enabled user then
              let '(refresh, access) := for_user user in
              mkResponse (Data (mkLoginData refresh access user)) HTTP_200_OK
            else
              mkResponse (Error "Invalid credentials or account disabled")
                         HTTP_401_UNAUTHORIZED
        | None =>
            mkResponse (Error "Invalid credentials or account disabled")
                       HTTP_401_UNAUTHORIZED
        end
    | _, _ =>
        mkResponse (Error "Username and password required") HTTP_400_BAD_REQUEST
    end.

End Login.

(** [get(request)]: the current user. *)
Definition get (request_user : option User.t) : Response User.t :=
  match request_user with
  | None => mkResponse (Error "Not authenticated") HTTP_401_UNAUTHORIZED
  | Some u => mkResponse (Data u) HTTP_200_OK
  end.

End AuthView.

(** ** [UserViewSet] ([views.py], lines 65-86) *)

Module UserViewSet.

(** [get_queryset]: Developer accounts are hidden from everyone but a
    Developer. *)
Definition get_queryset (request_user : User.t) (db : DB) : list User.t :=
  if negb (User.is_developer request_user) then
    filter (fun u => negb (String.eqb (User.role u) "Developer")) (users db)
  else users db.

(** [user.save()]. *)
Definition save_user (u : User.t) (db : DB) : DB :=
  mkDB (map (fun x => if User.id x =? User.id u then u else x) (users db))
       (products db) (cart_items db) (orders db) (order_items db)
       (attendance_records db) (restock_records db).

Definition with_is_enabled (u : User.t) (b : bool) : User.t :=
  User.mk (User.id u) (User.username u) (User.role u) (User.name u)
          (User.monthly_salary u) b.

(** [toggle_status(request, pk)]: enable or disable a user. *)
Definition toggle_status (request_user : User.t) (pk_ : pk) (db : DB)
    : Response bool * DB :=
  match find (fun u => User.id u =? pk_) (get_queryset request_user db) with
  | None => (mkResponse (Error "Not found.") HTTP_404_NOT_FOUND, db)
  | Some user =>
      if User.id user =? User.id request_user then
        (mkResponse (Error "Cannot disable your own account")
                    HTTP_400_BAD_REQUEST, db)
      else
        let user := with_is_enabled user (negb (User.is_enabled user)) in
        (mkResponse (Data (User.is_enabled user)) HTTP_200_OK, save_user user db)
  end.

(** The action behind the permission class of the view set (line 69). *)
Definition toggle_status_endpoint (request_user : option User.t) (pk_ : pk)
    (db : DB) : Response bool * DB :=
  check_permissions IsDeveloperOrAdmin.has_permission request_user
    (fun db => match request_user with
               | Some u => toggle_status u pk_ db
               | None =>
                   (mkResponse (Error "Not authenticated")
                               HTTP_401_UNAUTHORIZED, db)
               end)
    db.

End UserViewSet.

(** ** The seed command ([management/commands/seed_data.py]) *)

Module Command.






End Command.

(** ** Constraints of the schema and vocabulary of the properties *)

(** [CartItem.Meta.unique_together = ['user', 'product']]. *)
Definition cart_unique_together (db : DB) : Prop :=
  NoDup (map (fun c => (CartItem.user c, CartItem.product c)) (cart_items db)).

(** The foreign key of [CartItem.product]: the product row exists. *)
Definition cart_products_exist (db : DB) : Prop :=
  forall c, In c (cart_items db) -> get_product (CartItem.product c) db <> None.

(** The constraints on the cart table together, with its primary key. *)
Definition cart_ok (db : DB) : Prop :=
  NoDup (map CartItem.id (cart_items db))
  /\ cart_unique_together db
  /\ cart_products_exist db.

(** An order item that snapshots the product of a cart row as it is in
    the store, for a given order. *)
Definition snapshot_of (order_id : pk) (db : DB) (c : CartItem.t)
    (i : OrderItem.t) : Prop :=
  exists p : Product.t,
    get_product (CartItem.product c) db = Some p
    /\ OrderItem.order i = order_id
    /\ OrderItem.product i = Some (Product.id p)
    /\ OrderItem.product_name i = Product.name p
    /\ OrderItem.product_emoji i = Product.emoji p
    /\ OrderItem.price i = Product.price p
    /\ OrderItem.is_sold_by_weight i = Product.is_sold_by_weight p
    /\ OrderItem.quantity i = CartItem.quantity c.

(** Numeric equality of decimals, Python's [==]. *)
Definition deq (a b : Decimal) : bool :=
  match dcmp a b with Eq => true | _ => false end.

(** [AttendanceRecord.Meta.unique_together = ['user', 'date']]. *)
Definition attendance_unique_together (db : DB) : Prop :=
  NoDup (map (fun r => (AttendanceRecord.user r, AttendanceRecord.date_ r))
             (attendance_records db)).

(** Every stock of the catalogue is at or above zero. *)
Definition stock_nonneg (db : DB) : bool :=
  forallb (fun p => dle D0 (Product.stock p)) (products db).


(** ** Sample data, for the worked examples *)

Module Sample.

Definition alice : User.t :=
  User.mk 1 "alice" "User" "Alice" (mkDecimal 0 (-2)) true.
Definition bob : User.t :=
  User.mk 2 "bob" "Moderator" "" (mkDecimal 150000 (-2)) true.
Definition carol : User.t :=
  User.mk 3 "carol" "Admin" "Carol" (mkDecimal 300000 (-2)) false.

(** Price 2.49, stock 10.000. *)
Definition lollipop : Product.t :=
  Product.mk 1 "Lollipop" "L" "1001" (mkDecimal 249 (-2))
             (mkDecimal 10000 (-3)) false.
(** Price 1.00, stock 4.000. *)
Definition toffee : Product.t :=
  Product.mk 2 "Toffee" "T" "" (mkDecimal 100 (-2))
             (mkDecimal 4000 (-3)) true.

(** A store with an empty cart and no history. *)
Definition shop : DB :=
  mkDB [alice; bob; carol] [lollipop; toffee] [] [] [] [] [].

(** Alice's cart holds 3.000 lollipops and 2.000 of toffee. *)
Definition shop_with_cart : DB :=
  mkDB [alice; bob; carol] [lollipop; toffee]
       [CartItem.mk 1 1 1 (mkDecimal 3000 (-3));
        CartItem.mk 2 1 2 (mkDecimal 2000 (-3))]
       [] [] [] [].

Definition may_5 : date := mkDate 2024 5 5.

(** Bob was present on 5 May 2024. *)
Definition bob_present : AttendanceRecord.t :=
  AttendanceRecord.mk 1 2 "bob" may_5 "Present" true
                      (mkDecimal 800 (-2)) (mkDecimal 150 (-2))
                      (mkDecimal 9500 (-2)) None None "".

Definition shop_with_attendance : DB :=
  mkDB [alice; bob; carol] [lollipop; toffee] [] [] [] [bob_present] [].

(** A reader of dates that knows one date string. *)
Definition parse_date (s : string) : option date :=
  if String.eqb s "2024-05-05" then Some may_5 else None.

(** A serializer that accepts every request as Bob on 5 May 2024. *)
Definition is_valid (_ : AttendanceRecordViewSet.Request) (_ : DB)
    : AttendanceRecordViewSet.Errors + AttendanceRecordViewSet.ValidatedData :=
  inr (AttendanceRecordViewSet.mkValidatedData
         bob None may_5 None None None None None None None None).

(** The text SQLite gives for the violated constraint. *)
Definition sqlite_unique_message : string :=
  "UNIQUE constraint failed: api_attendancerecord.user_id, api_attendancerecord.date".

Definition duplicate_request : AttendanceRecordViewSet.Request :=
  AttendanceRecordViewSet.mkRequest (Some 2) (Some "2024-05-05") [].

End Sample.

(** * Properties *)

Local Open Scope list_scope.

(** ** The store *)

Lemma get_product_id (i : pk) (db : DB) (p : Product.t) :
  get_product i db = Some p -> Product.id p = i.
Proof.
  unfold get_product. intros H.
  apply find_some in H. destruct H as [_ H]. now apply Z.eqb_eq.
Qed.

Lemma find_map_replace (p : Product.t) (i : pk) (l : list Product.t) :
  find (fun x => Product.id x =? i)
       (map (fun x => if Product.id x =? Product.id p then p else x) l)
  = if Product.id p =? i
    then match find (fun x => Product.id x =? i) l with
         | Some _ => Some p
         | None => None
         end
    else find (fun x => Product.id x =? i) l.
Proof.
  induction l as [|x l IH]; simpl.
  - now destruct (Product.id p =? i).
  - destruct (Product.id x =? Product.id p) eqn:Exp.
    + apply Z.eqb_eq in Exp.
      destruct (Product.id p =? i) eqn:Epi.
      * rewrite Exp, Epi. reflexivity.
      * rewrite Exp, Epi. exact IH.
    + simpl. destruct (Product.id x =? i) eqn:Exi.
      * destruct (Product.id p =? i) eqn:Epi; [|reflexivity].
        apply Z.eqb_eq in Exi, Epi. apply Z.eqb_neq in Exp. lia.
      * exact IH.
Qed.

(** Reading a product back after [save]. *)
Lemma get_product_save_same (p q : Product.t) (db : DB) :
  get_product (Product.id p) db = Some q ->
  get_product (Product.id p) (save_product p db) = Some p.
Proof.
  intros H. unfold get_product in *. simpl.
  rewrite find_map_replace, Z.eqb_refl, H. reflexivity.
Qed.

Lemma get_product_save_other (p : Product.t) (i : pk) (db : DB) :
  Product.id p <> i ->
  get_product i (save_product p db) = get_product i db.
Proof.
  intros H. unfold get_product. simpl.
  rewrite find_map_replace. apply Z.eqb_neq in H. now rewrite H.
Qed.

Lemma dle_dgt (a b : Decimal) : dle a b = negb (dgt a b).
Proof. unfold dle, dgt. now destruct (dcmp a b). Qed.

(** ** Restock *)



(** C8: restocking with a quantity of zero or below, or with none given,
    answers 400 with the validation message and leaves the store, and so
    the product's stock and the restock log, as they were. *)
Theorem restock_rejects_non_positive
    (u : User.t) (i : pk) (q : option Decimal) (now : datetime) (db : DB)
    (p : Product.t) :
  get_product i db = Some p ->
  dle (match q with Some q => q | None => D0 end) D0 = true ->
  ProductViewSet.restock u i q now db
  = (mkResponse (Error "Quantity must be greater than 0") HTTP_400_BAD_REQUEST,
     db).
Proof.
  intros Hp Hq. unfold ProductViewSet.restock. rewrite Hp, Hq. reflexivity.
Qed.

Lemma restock_rejects_non_positive_witness :
  get_product 1 Sample.shop = Some Sample.lollipop
  /\ dle (mkDecimal (-1500) (-3)) D0 = true
  /\ ProductViewSet.restock Sample.bob 1 (Some (mkDecimal (-1500) (-3))) 1000
                            Sample.shop
     = (mkResponse (Error "Quantity must be greater than 0")
                   HTTP_400_BAD_REQUEST, Sample.shop).
Proof.
  split; [reflexivity|]. split; [reflexivity|].
  apply (restock_rejects_non_positive Sample.bob 1
           (Some (mkDecimal (-1500) (-3))) 1000 Sample.shop Sample.lollipop);
    reflexivity.
Defined.

(** ** Cart *)

Lemma next_id_fresh (l : list pk) (x : pk) : In x l -> x < next_id l.
Proof.
  unfold next_id. induction l as [|y l IH]; simpl; [tauto|].
  intros [->|H]; [lia|]. specialize (IH H). lia.
Qed.


Section CartCreate.

Variables (u : User.t) (i : pk) (p : Product.t) (db : DB).
Hypothesis product_exists : get_product i db = Some p.






End CartCreate.


(** *** Add-to-cart keeps the constraints of the cart table *)

Lemma nodup_map_injective {A B : Type} (f : A -> B) (l : list A) (x y : A) :
  NoDup (map f l) -> In x l -> In y l -> f x = f y -> x = y.
Proof.
  induction l as [|a l IH]; simpl; intros Hnd Hx Hy Hxy; [tauto|].
  apply NoDup_cons_iff in Hnd. destruct Hnd as [Ha Hnd].
  destruct Hx as [->|Hx], Hy as [->|Hy].
  - reflexivity.
  - exfalso. apply Ha. rewrite Hxy. now apply in_map.
  - exfalso. apply Ha. rewrite <- Hxy. now apply in_map.
  - now apply IH.
Qed.

Lemma nodup_snoc {A : Type} (l : list A) (a : A) :
  NoDup l -> ~ In a l -> NoDup (l ++ [a]).
Proof.
  intros Hl Ha. apply NoDup_app; [exact Hl | repeat constructor; simpl; tauto |].
  intros b Hb [<-|[]]. contradiction.
Qed.

Lemma matching_rows_in (uid pid : pk) (db : DB) (c : CartItem.t) :
  In c (CartViewSet.matching_rows uid pid db)
  <-> In c (cart_items db) /\ CartItem.user c = uid /\ CartItem.product c = pid.
Proof.
  unfold CartViewSet.matching_rows.
  rewrite filter_In, andb_true_iff, !Z.eqb_eq. tauto.
Qed.

(** Saving a changed quantity changes neither keys nor products. *)
Lemma save_quantity_keeps {B : Type} (f : CartItem.t -> B) (c : CartItem.t)
    (q : Decimal) (l : list CartItem.t) :
  (forall x, f (CartItem.with_quantity x q) = f x) ->
  NoDup (map CartItem.id l) ->
  In c l ->
  map f (map (fun x => if CartItem.id x =? CartItem.id (CartItem.with_quantity c q)
                       then CartItem.with_quantity c q else x) l)
  = map f l.
Proof.
  intros Hf Hnd Hc. rewrite map_map. apply map_ext_in. intros x Hx.
  destruct (CartItem.id x =? CartItem.id (CartItem.with_quantity c q)) eqn:E;
    [|reflexivity].
  apply Z.eqb_eq in E. simpl in E.
  rewrite (nodup_map_injective CartItem.id l x c Hnd Hx Hc E). apply Hf.
Qed.

Lemma create_keeps_cart_ok (u : User.t) (i : option pk) (q : option Decimal)
    (db : DB) :
  cart_ok db -> cart_ok (snd (CartViewSet.create u i q db)).
Proof.
  intros (Hid & Hkey & Hfk). unfold CartViewSet.create.
  destruct (match i with Some i0 => get_product i0 db | None => None end)
    as [p|] eqn:Ep; [|now repeat split].
  assert (Hp : get_product (Product.id p) db = Some p).
  { destruct i as [i0|]; [|discriminate].
    now rewrite (get_product_id _ _ _ Ep). }
  unfold CartViewSet.get_or_create.
  destruct (CartViewSet.matching_rows (User.id u) (Product.id p) db)
    as [|c [|c' l]] eqn:E; [| |now repeat split].
  - simpl. repeat split.
    + simpl. rewrite map_app. apply nodup_snoc; [exact Hid|].
      intros Hin. apply next_id_fresh in Hin. cbn [CartItem.id] in Hin. lia.
    + unfold cart_unique_together in *. simpl. rewrite map_app.
      apply nodup_snoc; [exact Hkey|]. simpl.
      intros Hin. apply in_map_iff in Hin. destruct Hin as (x & Hx & Hin).
      injection Hx as Hxu Hxp.
      assert (Hm : In x (CartViewSet.matching_rows (User.id u) (Product.id p) db))
        by (apply matching_rows_in; tauto).
      now rewrite E in Hm.
    + intros x Hx. simpl in Hx. apply in_app_or in Hx.
      destruct Hx as [Hx|[<-|[]]]; [now apply Hfk|].
      simpl. change (get_product (Product.id p) db <> None).
      rewrite Hp. discriminate.
  - assert (Hc : In c (cart_items db)).
    { apply (matching_rows_in (User.id u) (Product.id p)). rewrite E. now left. }
    simpl negb. cbv iota.
    destruct (dgt _ (Product.stock p)); [now repeat split|].
    simpl snd. unfold CartViewSet.save_cart_item, cart_ok, cart_unique_together.
    cbn [cart_items]. repeat split.
    + now rewrite (save_quantity_keeps CartItem.id).
    + now rewrite (save_quantity_keeps
                     (fun c => (CartItem.user c, CartItem.product c))).
    + intros x Hx. cbn [cart_items] in Hx.
      assert (Hprod : In (CartItem.product x)
                         (map CartItem.product (cart_items db))).
      { rewrite <- (save_quantity_keeps CartItem.product c
                      (dadd (CartItem.quantity c)
                            (match q with Some q0 => q0 | None => Decimal_of_int 1 end))
                      (cart_items db)); [now apply in_map | reflexivity
                                         | exact Hid | exact Hc]. }
      apply in_map_iff in Hprod. destruct Hprod as (y & Hy & Hin).
      change (get_product (CartItem.product x) db <> None).
      rewrite <- Hy. now apply Hfk.
Qed.

(** A cart filled by add-to-cart from an empty one meets what checkout is
    proved under. *)
Lemma empty_cart_ok (db : DB) : cart_items db = [] -> cart_ok db.
Proof.
  intros H. unfold cart_ok, cart_unique_together, cart_products_exist.
  rewrite H. repeat split; try constructor. intros c [].
Qed.





(** ** Checkout *)

Section Checkout.

Variable db : DB.

Lemma load_products_total (cart : list CartItem.t) :
  (forall c, In c cart -> get_product (CartItem.product c) db <> None) ->
  exists rows, OrderViewSet.load_products cart db = Some rows.
Proof.
  induction cart as [|c cart IH]; intros H; simpl.
  - now exists [].
  - destruct (get_product (CartItem.product c) db) as [p|] eqn:E.
    + destruct IH as [rows ->]; [intros; apply H; now right|]. eauto.
    + exfalso. apply (H c); [now left | exact E].
Qed.

Lemma load_products_rows (cart : list CartItem.t)
    (rows : list (CartItem.t * Product.t)) :
  OrderViewSet.load_products cart db = Some rows ->
  map fst rows = cart
  /\ Forall (fun r => get_product (CartItem.product (fst r)) db = Some (snd r))
            rows.
Proof.
  revert rows. induction cart as [|c cart IH]; simpl; intros rows H.
  - injection H as <-. now split.
  - destruct (get_product (CartItem.product c) db) as [p|] eqn:E; [|discriminate].
    destruct (OrderViewSet.load_products cart db) as [l|]; [|discriminate].
    injection H as <-. destruct (IH l eq_refl) as [H1 H2].
    simpl. split; [now rewrite H1 | now constructor].
Qed.

Lemma load_products_item_totals (cart : list CartItem.t)
    (rows : list (CartItem.t * Product.t)) :
  OrderViewSet.load_products cart db = Some rows ->
  CartViewSet.item_totals cart db
  = Some (map (fun r => dmul (Product.price (snd r)) (CartItem.quantity (fst r)))
              rows).
Proof.
  revert rows. induction cart as [|c cart IH]; simpl; intros rows H.
  - now injection H as <-.
  - unfold item_total.
    destruct (get_product (CartItem.product c) db) as [p|]; [|discriminate].
    destruct (OrderViewSet.load_products cart db) as [l|]; [|discriminate].
    injection H as <-. now rewrite (IH l eq_refl).
Qed.

End Checkout.

(** The loop of checkout touches only the order items and the products. *)
Lemma checkout_loop_frame (oid : pk) (rows : list (CartItem.t * Product.t))
    (db : DB) :
  let db' := fold_left (OrderViewSet.checkout_step oid) rows db in
  users db' = users db /\ cart_items db' = cart_items db
  /\ orders db' = orders db
  /\ attendance_records db' = attendance_records db
  /\ restock_records db' = restock_records db.
Proof.
  revert db. induction rows as [|[c p] rows IH]; intros db; cbn [fold_left].
  - repeat split.
  - destruct (IH (OrderViewSet.checkout_step oid db (c, p)))
      as (H1 & H2 & H3 & H4 & H5).
    cbv zeta in *. rewrite H1, H2, H3, H4, H5. repeat split.
Qed.

(** It appends one order item per row, in order, each a snapshot of the
    product that was loaded for the row. *)
Lemma checkout_loop_items (oid : pk) (rows : list (CartItem.t * Product.t))
    (db : DB) :
  exists items : list OrderItem.t,
    order_items (fold_left (OrderViewSet.checkout_step oid) rows db)
    = order_items db ++ items
    /\ Forall2 (fun r i =>
                  OrderItem.order i = oid
                  /\ OrderItem.product i = Some (Product.id (snd r))
                  /\ OrderItem.product_name i = Product.name (snd r)
                  /\ OrderItem.product_emoji i = Product.emoji (snd r)
                  /\ OrderItem.price i = Product.price (snd r)
                  /\ OrderItem.is_sold_by_weight i
                     = Product.is_sold_by_weight (snd r)
                  /\ OrderItem.quantity i = CartItem.quantity (fst r))
               rows items.
Proof.
  revert db. induction rows as [|[c p] rows IH]; intros db; cbn [fold_left].
  - exists []. split; [now rewrite app_nil_r | constructor].
  - destruct (IH (OrderViewSet.checkout_step oid db (c, p))) as (items & H1 & H2).
    eexists (_ :: items). split.
    + rewrite H1. simpl. rewrite <- app_assoc. reflexivity.
    + constructor; [|exact H2]. simpl. repeat split.
Qed.

(** It leaves the products outside the cart as they were. *)
Lemma checkout_loop_other (oid : pk) (rows : list (CartItem.t * Product.t))
    (db : DB) (j : pk) :
  ~ In j (map (fun r => Product.id (snd r)) rows) ->
  get_product j (fold_left (OrderViewSet.checkout_step oid) rows db)
  = get_product j db.
Proof.
  revert db. induction rows as [|[c p] rows IH]; intros db Hj; cbn [fold_left];
    [reflexivity|].
  simpl in Hj. rewrite IH by tauto.
  unfold OrderViewSet.checkout_step.
  rewrite get_product_save_other by (simpl; tauto). reflexivity.
Qed.

(** It takes the quantity of each row off the stock of its product. *)
Lemma checkout_loop_stock (oid : pk) (rows : list (CartItem.t * Product.t))
    (db : DB) (c : CartItem.t) (p : Product.t) :
  NoDup (map (fun r => Product.id (snd r)) rows) ->
  In (c, p) rows ->
  get_product (Product.id p) db <> None ->
  get_product (Product.id p) (fold_left (OrderViewSet.checkout_step oid) rows db)
  = Some (Product.with_stock p (dsub (Product.stock p) (CartItem.quantity c))).
Proof.
  revert db. induction rows as [|[c0 p0] rows IH]; intros db Hnd Hin Hex;
    cbn [fold_left map In snd] in *; [tauto|].
  apply NoDup_cons_iff in Hnd. destruct Hnd as [Hfresh Hnd].
  destruct Hin as [Heq|Hin].
  - injection Heq as -> ->.
    rewrite checkout_loop_other by exact Hfresh.
    unfold OrderViewSet.checkout_step.
    destruct (get_product (Product.id p) db) as [q|] eqn:E; [|congruence].
    change (Product.id p)
      with (Product.id (Product.with_stock p
                          (dsub (Product.stock p) (CartItem.quantity c)))) at 1.
    now apply get_product_save_same with (q := q).
  - apply IH; [exact Hnd | exact Hin |].
    unfold OrderViewSet.checkout_step.
    rewrite get_product_save_other; [exact Hex|].
    simpl. intros E. apply Hfresh. rewrite E.
    apply (in_map (fun r => Product.id (snd r)) rows (c, p) Hin).
Qed.

Lemma load_products_ids (db : DB) (cart : list CartItem.t)
    (rows : list (CartItem.t * Product.t)) :
  OrderViewSet.load_products cart db = Some rows ->
  map (fun r => Product.id (snd r)) rows = map CartItem.product cart.
Proof.
  intros H. destruct (load_products_rows db cart rows H) as [<- Hall]. clear H.
  induction Hall as [|r rows Hr _ IH]; simpl; [reflexivity|].
  now rewrite IH, (get_product_id _ _ _ Hr).
Qed.

(** Under [unique_together], the cart of one user names a product once. *)
Lemma user_cart_products_nodup (uid : pk) (l : list CartItem.t) :
  NoDup (map (fun c => (CartItem.user c, CartItem.product c)) l) ->
  NoDup (map CartItem.product (filter (fun c => CartItem.user c =? uid) l)).
Proof.
  induction l as [|c l IH]; simpl; intros H; [constructor|].
  apply NoDup_cons_iff in H. destruct H as [Hc Hl].
  destruct (CartItem.user c =? uid) eqn:E; [|now apply IH].
  simpl. constructor; [|now apply IH].
  intros Hin. apply in_map_iff in Hin. destruct Hin as (c' & Hp & Hin).
  apply filter_In in Hin. destruct Hin as [Hin Hu].
  apply Hc. apply in_map_iff. exists c'. split; [|exact Hin].
  apply Z.eqb_eq in E, Hu. now rewrite Hp, Hu, E.
Qed.

Lemma filter_negb_filter {A : Type} (f : A -> bool) (l : list A) :
  filter f (filter (fun x => negb (f x)) l) = [].
Proof.
  induction l as [|x l IH]; simpl; [reflexivity|].
  destruct (f x) eqn:E; simpl; [exact IH | now rewrite E].
Qed.

Lemma snapshots_of_rows (oid : pk) (db : DB)
    (rows : list (CartItem.t * Product.t)) (items : list OrderItem.t) :
  Forall (fun r => get_product (CartItem.product (fst r)) db = Some (snd r))
         rows ->
  Forall2 (fun r i =>
             OrderItem.order i = oid
             /\ OrderItem.product i = Some (Product.id (snd r))
             /\ OrderItem.product_name i = Product.name (snd r)
             /\ OrderItem.product_emoji i = Product.emoji (snd r)
             /\ OrderItem.price i = Product.price (snd r)
             /\ OrderItem.is_sold_by_weight i = Product.is_sold_by_weight (snd r)
             /\ OrderItem.quantity i = CartItem.quantity (fst r))
          rows items ->
  Forall2 (snapshot_of oid db) (map fst rows) items.
Proof.
  intros Hall H. induction H as [|r i rows' items' Hri _ IH]; simpl;
    [constructor|].
  inversion Hall as [|? ? Hr Hall']; subst.
  constructor; [|now apply IH].
  exists (snd r). destruct Hri as (A & B & C & D & E & F & G).
  repeat split; assumption.
Qed.

(** What checkout does on a cart with rows, under the constraints of the
    schema. *)
Lemma checkout_general (u : User.t) (now : datetime) (db : DB)
    (cart : list CartItem.t) :
  cart_unique_together db ->
  cart_products_exist db ->
  CartViewSet.get_queryset u db = cart ->
  cart <> [] ->
  exists (o : Order.t) (ts : list Decimal) (items : list OrderItem.t) (db' : DB),
    OrderViewSet.checkout u now db
    = (mkResponse
         (Data (OrderViewSet.mkOrderData o
                  (filter (fun i => OrderItem.order i =? Order.id o)
                          (order_items db'))))
         HTTP_201_CREATED, db')
    /\ orders db' = orders db ++ [o]
    /\ Order.status o = "Completed"
    /\ Order.user o = Some (User.id u)
    /\ CartViewSet.item_totals cart db = Some ts
    /\ Order.total o = py_sum ts
    /\ Order.item_count o
       = int_sum (map (fun c => int_of_Decimal (CartItem.quantity c)) cart)
    /\ order_items db' = order_items db ++ items
    /\ Forall2 (snapshot_of (Order.id o) db) cart items
    /\ (forall c p, In c cart ->
          get_product (CartItem.product c) db = Some p ->
          get_product (CartItem.product c) db'
          = Some (Product.with_stock p
                    (dsub (Product.stock p) (CartItem.quantity c))))
    /\ (forall j, ~ In j (map CartItem.product cart) ->
          get_product j db' = get_product j db)
    /\ cart_items db'
       = filter (fun c => negb (CartItem.user c =? User.id u)) (cart_items db)
    /\ CartViewSet.get_queryset u db' = [].
Proof.
  intros Huniq Hfk Hcart Hne.
  assert (Hex : forall c, In c cart -> get_product (CartItem.product c) db <> None).
  { intros c Hc. apply Hfk. subst cart. unfold CartViewSet.get_queryset in Hc.
    apply filter_In in Hc. tauto. }
  destruct (load_products_total db cart Hex) as [rows Hrows].
  destruct (load_products_rows db cart rows Hrows) as [Hfst Hall].
  pose proof (load_products_ids db cart rows Hrows) as Hids.
  assert (Hnd : NoDup (map (fun r => Product.id (snd r)) rows)).
  { rewrite Hids. subst cart. now apply user_cart_products_nodup. }
  set (o := Order.mk (next_id (map Order.id (orders db))) (Some (User.id u))
                     (User.display_name u) now
                     (py_sum (map (fun r => dmul (Product.price (snd r))
                                                 (CartItem.quantity (fst r))) rows))
                     (int_sum (map (fun r => int_of_Decimal
                                               (CartItem.quantity (fst r))) rows))
                     "Completed").
  set (db1 := mkDB (users db) (products db) (cart_items db) (orders db ++ [o])
                   (order_items db) (attendance_records db) (restock_records db)).
  set (db2 := fold_left (OrderViewSet.checkout_step (Order.id o)) rows db1).
  destruct (checkout_loop_frame (Order.id o) rows db1) as (F1 & F2 & F3 & F4 & F5).
  destruct (checkout_loop_items (Order.id o) rows db1) as (items & I1 & I2).
  fold db2 in F1, F2, F3, F4, F5, I1.
  exists o, (map (fun r => dmul (Product.price (snd r))
                                (CartItem.quantity (fst r))) rows),
         items, (OrderViewSet.delete_cart (User.id u) db2).
  split.
  { unfold OrderViewSet.checkout.
    change (filter (fun c => CartItem.user c =? User.id u) (cart_items db))
      with (CartViewSet.get_queryset u db).
    rewrite Hcart. destruct cart as [|c0 cart']; [congruence|].
    rewrite Hrows. reflexivity. }
  split; [exact F3|]. split; [reflexivity|]. split; [reflexivity|].
  split; [now apply load_products_item_totals|]. split; [reflexivity|].
  split.
  { simpl. rewrite <- Hfst, map_map. reflexivity. }
  split; [exact I1|].
  split.
  { rewrite <- Hfst. now apply snapshots_of_rows. }
  split.
  { intros c p Hc Hp.
    assert (Hin : In (c, p) rows).
    { rewrite <- Hfst in Hc. apply in_map_iff in Hc.
      destruct Hc as ([c' p'] & Hc' & Hin). simpl in Hc'. subst c'.
      rewrite Forall_forall in Hall. specialize (Hall _ Hin). simpl in Hall.
      congruence. }
    rewrite <- (get_product_id _ _ _ Hp).
    change (get_product (Product.id p)
              (OrderViewSet.delete_cart (User.id u) db2))
      with (get_product (Product.id p) db2).
    apply checkout_loop_stock; [exact Hnd | exact Hin |].
    change (get_product (Product.id p) db1) with (get_product (Product.id p) db).
    rewrite (get_product_id _ _ _ Hp), Hp. discriminate. }
  split.
  { intros j Hj.
    change (get_product j (OrderViewSet.delete_cart (User.id u) db2))
      with (get_product j db2).
    unfold db2. rewrite checkout_loop_other; [reflexivity|].
    now rewrite Hids. }
  split.
  { simpl. now rewrite F2. }
  unfold CartViewSet.get_queryset. simpl.
  apply (filter_negb_filter (fun c => CartItem.user c =? User.id u)).
Qed.


Lemma shop_with_cart_constraints :
  cart_unique_together Sample.shop_with_cart
  /\ cart_products_exist Sample.shop_with_cart.
Proof.
  split.
  - unfold cart_unique_together. simpl.
    repeat constructor; simpl; intuition discriminate.
  - intros c [<-|[<-|[]]]; discriminate.
Defined.


(** The same checkout, evaluated. *)
Example checkout_sample :
  let db' := snd (OrderViewSet.checkout Sample.alice 1000 Sample.shop_with_cart) in
  map Order.total (orders db') = [mkDecimal 947000 (-5)]
  /\ map Order.item_count (orders db') = [5]
  /\ map OrderItem.item_total (order_items db')
     = [mkDecimal 747000 (-5); mkDecimal 200000 (-5)]
  /\ cart_items db' = []
  /\ map Product.stock (products db')
     = [mkDecimal 7000 (-3); mkDecimal 2000 (-3)].
Proof. vm_compute. repeat split. Qed.

(** ** Stock below zero *)

(** C4: the stock does not stay at or above zero.  In a store where every
    stock is at or above zero, Alice adds 5 of toffee to an empty cart
    while 4.000 are in stock (the first add is not checked against the
    stock) and checks out: both requests answer 201 and the stock of
    toffee is -1.000 afterwards. *)
Theorem checkout_takes_stock_below_zero :
  let added :=
    CartViewSet.create Sample.alice (Some 2) (Some (mkDecimal 5 0)) Sample.shop in
  let paid := OrderViewSet.checkout Sample.alice 1000 (snd added) in
  forallb (fun p => dle D0 (Product.stock p)) (products Sample.shop) = true
  /\ status_code (fst added) = HTTP_201_CREATED
  /\ status_code (fst paid) = HTTP_201_CREATED
  /\ get_product 2 (snd paid)
     = Some (Product.with_stock Sample.toffee (mkDecimal (-1000) (-3)))
  /\ forallb (fun p => dle D0 (Product.stock p)) (products (snd paid)) = false.
Proof. vm_compute. repeat split. Qed.

(** ** Reports: the gate *)

Lemma has_permission_roles (u : User.t) :
  IsDeveloperAdminOrModerator.has_permission (Some u) = true
  <-> (User.role u = "Developer" \/ User.role u = "Admin"
       \/ User.role u = "Moderator").
Proof.
  unfold IsDeveloperAdminOrModerator.has_permission,
    User.is_developer, User.is_admin, User.is_moderator.
  rewrite !orb_true_iff, !String.eqb_eq. tauto.
Qed.

(** C6, as stated, fails: a Moderator is not turned away from the
    reports. *)
Lemma reports_open_to_moderator :
  ~ (forall (u : User.t) (now : datetime) (db : DB),
       User.role u = "Moderator" \/ User.role u = "User" ->
       status_code (fst (ReportsView.endpoint (Some u) now db))
       = HTTP_403_FORBIDDEN).
Proof.
  intros H.
  specialize (H Sample.bob 1000 Sample.shop (or_introl eq_refl)).
  vm_compute in H. discriminate.
Qed.

(** C6, amended: the reports are served to the roles Developer, Admin and
    Moderator, and only to them; a request of a user with role User is
    answered 403 and the report is not computed. *)
Theorem reports_gate (u : User.t) (now : datetime) (db : DB) :
  (User.role u = "Developer" \/ User.role u = "Admin"
   \/ User.role u = "Moderator" ->
   ReportsView.endpoint (Some u) now db = (ReportsView.get now db, db))
  /\ (ReportsView.endpoint (Some u) now db = (ReportsView.get now db, db) ->
      User.role u = "Developer" \/ User.role u = "Admin"
      \/ User.role u = "Moderator")
  /\ (User.role u = "User" ->
      ReportsView.endpoint (Some u) now db
      = (mkResponse (Error "You do not have permission to perform this action.")
                    HTTP_403_FORBIDDEN, db)).
Proof.
  unfold ReportsView.endpoint, check_permissions.
  pose proof (has_permission_roles u) as Hroles.
  destruct (IsDeveloperAdminOrModerator.has_permission (Some u)) eqn:E.
  - split; [reflexivity|]. split; [intros _; now apply Hroles|].
    intros Hu. destruct Hroles as [Hr _].
    destruct (Hr eq_refl) as [H|[H|H]]; rewrite Hu in H; discriminate.
  - split; [intros H; apply Hroles in H; discriminate|].
    split; [|reflexivity].
    intros H. injection H as H. exfalso.
    unfold ReportsView.get in H.
    destruct (if 0 <? Z.of_nat (List.length (orders db))
              then ddiv (ReportsView.or_zero
                           (ReportsView.Sum (map Order.total (orders db))))
                        (Decimal_of_int (Z.of_nat (List.length (orders db))))
              else Some D0_00); discriminate.
Qed.

(** Alice, a User, is turned away; Bob, a Moderator, is served. *)
Lemma reports_gate_witness :
  ReportsView.endpoint (Some Sample.alice) 1000 Sample.shop
  = (mkResponse (Error "You do not have permission to perform this action.")
                HTTP_403_FORBIDDEN, Sample.shop)
  /\ ReportsView.endpoint (Some Sample.bob) 1000 Sample.shop
     = (ReportsView.get 1000 Sample.shop, Sample.shop).
Proof.
  split.
  - apply (proj2 (proj2 (reports_gate Sample.alice 1000 Sample.shop))).
    reflexivity.
  - apply (proj1 (reports_gate Sample.bob 1000 Sample.shop)).
    right. right. reflexivity.
Defined.

(** ** Attendance: the monthly summary *)

Lemma month_records_spec (u : User.t) (y m : Z) (db : DB)
    (r : AttendanceRecord.t) :
  In r (AttendanceRecordViewSet.month_records u y m db)
  <-> In r (attendance_records db)
      /\ AttendanceRecord.user r = User.id u
      /\ year (AttendanceRecord.date_ r) = y
      /\ month (AttendanceRecord.date_ r) = m.
Proof.
  unfold AttendanceRecordViewSet.month_records.
  rewrite filter_In, !andb_true_iff, !Z.eqb_eq. tauto.
Qed.

(** C7: for every year and month, the monthly summary answers 200 with
    one entry per enabled user, in the order of the users; the entry of a
    user counts the present and the absent records of that user in the
    month and sums their hours and their pay; and an enabled user without
    a record in the month has the entry with 0, 0, 0 and 0. *)
Theorem monthly_summary_covers_enabled_users
    (y m : Z) (today : date) (db : DB) :
  exists summaries : list AttendanceRecordViewSet.Summary,
    AttendanceRecordViewSet.monthly_summary (Some (y, m)) today db
    = mkResponse (Data summaries) HTTP_200_OK
    /\ Forall2
         (fun u s =>
            let records := AttendanceRecordViewSet.month_records u y m db in
            AttendanceRecordViewSet.user_id s = User.id u
            /\ AttendanceRecordViewSet.present_days s
               = Z.of_nat (List.length
                             (filter AttendanceRecord.is_present records))
            /\ AttendanceRecordViewSet.absent_days s
               = Z.of_nat (List.length
                             (filter (fun r => negb (AttendanceRecord.is_present r))
                                     records))
            /\ AttendanceRecordViewSet.total_hours s
               = py_sum (map AttendanceRecord.total_hours records)
            /\ AttendanceRecordViewSet.total_pay s
               = py_sum (map AttendanceRecord.daily_pay records))
         (filter User.is_enabled (users db)) summaries
    /\ (forall u r,
          In r (AttendanceRecordViewSet.month_records u y m db)
          <-> In r (attendance_records db)
              /\ AttendanceRecord.user r = User.id u
              /\ year (AttendanceRecord.date_ r) = y
              /\ month (AttendanceRecord.date_ r) = m)
    /\ (forall u,
          In u (users db) ->
          User.is_enabled u = true ->
          AttendanceRecordViewSet.month_records u y m db = [] ->
          In (AttendanceRecordViewSet.mkSummary
                (User.id u) (User.display_name u) 0 0 D0 D0)
             summaries).
Proof.
  eexists. split; [reflexivity|]. split; [|split].
  - induction (filter User.is_enabled (users db)) as [|u l IH]; simpl;
      constructor; [repeat split | exact IH].
  - intros u r. apply month_records_spec.
  - intros u Hu He Hnone. apply in_map_iff. exists u. split.
    + unfold AttendanceRecordViewSet.summarize. rewrite Hnone. reflexivity.
    + apply filter_In. now split.
Qed.

(** Alice is enabled and has no record in May 2024; Carol is disabled. *)
Lemma monthly_summary_covers_enabled_users_witness :
  exists summaries : list AttendanceRecordViewSet.Summary,
    AttendanceRecordViewSet.monthly_summary (Some (2024, 5)) Sample.may_5
                                            Sample.shop_with_attendance
    = mkResponse (Data summaries) HTTP_200_OK
    /\ List.length summaries = 2%nat
    /\ In (AttendanceRecordViewSet.mkSummary 1 "Alice" 0 0 D0 D0) summaries.
Proof.
  destruct (monthly_summary_covers_enabled_users 2024 5 Sample.may_5
              Sample.shop_with_attendance) as (s & H1 & H2 & _ & H4).
  exists s. split; [exact H1|]. split.
  - apply Forall2_length in H2. rewrite <- H2. reflexivity.
  - apply (H4 Sample.alice); [now left | reflexivity | reflexivity].
Defined.

(** The summary of the sample store, evaluated. *)
Example monthly_summary_sample :
  AttendanceRecordViewSet.monthly_summary (Some (2024, 5)) Sample.may_5
                                          Sample.shop_with_attendance
  = mkResponse
      (Data [AttendanceRecordViewSet.mkSummary 1 "Alice" 0 0 D0 D0;
             AttendanceRecordViewSet.mkSummary 2 "bob" 1 0
               (mkDecimal 950 (-2)) (mkDecimal 9500 (-2))])
      HTTP_200_OK.
Proof. reflexivity. Qed.

(** ** Reports: the average *)

Lemma ddiv_defined (a b : Decimal) :
  coef b <> 0 -> exists d, ddiv a b = Some d.
Proof.
  intros Hb. unfold ddiv. apply Z.eqb_neq in Hb. rewrite Hb.
  destruct (coef a =? 0); [eauto|].
  destruct (if 0 <=? ndigits (coef b) - ndigits (coef a) + prec + 1
            then _ else _) as [c r].
  destruct (if negb (r =? 0) then _ else _) as [c' e'].
  eauto.
Qed.

(** C9: without orders the report answers 200 with an average order value
    of 0.00 and 0 orders; the report never ends in a division by zero,
    whatever the store; with at least one order the average is the
    quotient of the total sales by the number of orders; and in the store
    that holds the one order of the sample checkout, the average times the
    number of orders is the total of 9.47. *)
Theorem average_order_value_safe :
  (forall (now : datetime) (db : DB),
     orders db = [] ->
     exists r, ReportsView.get now db = mkResponse (Data r) HTTP_200_OK
               /\ ReportsView.total_orders r = 0
               /\ ReportsView.average_order_value r = D0_00)
  /\ (forall (now : datetime) (db : DB),
        exists r, ReportsView.get now db = mkResponse (Data r) HTTP_200_OK)
  /\ (forall (now : datetime) (db : DB),
        orders db <> [] ->
        exists r, ReportsView.get now db = mkResponse (Data r) HTTP_200_OK
                  /\ 0 < ReportsView.total_orders r
                  /\ ddiv (ReportsView.total_sales r)
                          (Decimal_of_int (ReportsView.total_orders r))
                     = Some (ReportsView.average_order_value r))
  /\ (exists r,
        ReportsView.get 2000
          (snd (OrderViewSet.checkout Sample.alice 1000 Sample.shop_with_cart))
        = mkResponse (Data r) HTTP_200_OK
        /\ ReportsView.total_orders r = 1
        /\ deq (ReportsView.total_sales r) (mkDecimal 947 (-2)) = true
        /\ deq (ReportsView.average_order_value r) (mkDecimal 947 (-2)) = true
        /\ deq (dmul (ReportsView.average_order_value r)
                     (Decimal_of_int (ReportsView.total_orders r)))
               (ReportsView.total_sales r) = true).
Proof.
  assert (Hpos : forall (now : datetime) (db : DB),
            orders db <> [] ->
            exists r, ReportsView.get now db = mkResponse (Data r) HTTP_200_OK
                      /\ 0 < ReportsView.total_orders r
                      /\ ddiv (ReportsView.total_sales r)
                              (Decimal_of_int (ReportsView.total_orders r))
                         = Some (ReportsView.average_order_value r)).
  { intros now db Hne. unfold ReportsView.get.
    assert (Hlen : 0 < Z.of_nat (List.length (orders db))).
    { destruct (orders db); [congruence | simpl; lia]. }
    pose proof Hlen as Hlt. apply Z.ltb_lt in Hlt. rewrite Hlt.
    destruct (ddiv_defined
                (ReportsView.or_zero (ReportsView.Sum (map Order.total (orders db))))
                (Decimal_of_int (Z.of_nat (List.length (orders db)))))
      as [d Hd]; [simpl; lia|].
    rewrite Hd. eexists. split; [reflexivity|]. simpl. now split. }
  assert (Hzero : forall (now : datetime) (db : DB),
            orders db = [] ->
            exists r, ReportsView.get now db = mkResponse (Data r) HTTP_200_OK
                      /\ ReportsView.total_orders r = 0
                      /\ ReportsView.average_order_value r = D0_00).
  { intros now db Hnil. unfold ReportsView.get. rewrite Hnil. simpl.
    eexists. split; [reflexivity|]. now split. }
  split; [exact Hzero|]. split; [|split; [exact Hpos|]].
  - intros now db. destruct (orders db) as [|o l] eqn:E.
    + destruct (Hzero now db E) as (r & Hr & _). eauto.
    + destruct (Hpos now db) as (r & Hr & _); [congruence | eauto].
  - eexists. split; [vm_compute; reflexivity|]. vm_compute. repeat split.
Qed.

Lemma average_order_value_safe_witness :
  exists r, ReportsView.get 1000 Sample.shop = mkResponse (Data r) HTTP_200_OK
            /\ ReportsView.total_orders r = 0
            /\ ReportsView.average_order_value r = D0_00.
Proof.
  apply (proj1 average_order_value_safe 1000 Sample.shop). reflexivity.
Defined.

(** ** Attendance: duplicates *)

Lemma date_eqb_refl (d : date) : date_eqb d d = true.
Proof. unfold date_eqb. now rewrite !Z.eqb_refl. Qed.

Section Duplicate.

Variable parse_date : string -> option date.
Variable is_valid : AttendanceRecordViewSet.Request -> DB
                    -> AttendanceRecordViewSet.Errors
                       + AttendanceRecordViewSet.ValidatedData.
Variable unique_violation_message : string.

(** The database words the violation so that the view recognises it. *)
Hypothesis message_recognised :
  contains "unique" (lower unique_violation_message)
  || contains "duplicate" (lower unique_violation_message) = true.

Variables (request : AttendanceRecordViewSet.Request) (db : DB).

Let conflict : Response AttendanceRecord.t :=
  mkResponse
    (Error (AttendanceRecordViewSet.conflict_message
              (AttendanceRecordViewSet.req_date request)))
    HTTP_409_CONFLICT.

(** The duplicate is seen by the check before validation. *)
Lemma duplicate_seen_by_precheck (uid : pk) (raw : string) (d : date)
    (x : AttendanceRecord.t) :
  AttendanceRecordViewSet.req_user_id request = Some uid ->
  uid <> 0 ->
  AttendanceRecordViewSet.req_date request = Some raw ->
  raw <> "" ->
  parse_date raw = Some d ->
  In x (attendance_records db) ->
  AttendanceRecord.user x = uid ->
  AttendanceRecord.date_ x = d ->
  AttendanceRecordViewSet.create parse_date is_valid unique_violation_message
                                 request db
  = (conflict, db).
Proof.
  intros Hu Hnz Hd Hne Hparse Hin Hxu Hxd.
  unfold AttendanceRecordViewSet.create, AttendanceRecordViewSet.create_precheck.
  rewrite Hu, Hd.
  apply Z.eqb_neq in Hnz. apply String.eqb_neq in Hne. rewrite Hnz, Hne.
  simpl andb. cbv iota. rewrite Hparse.
  destruct (find _ (attendance_records db)) eqn:E.
  - unfold conflict. now rewrite Hd.
  - exfalso. apply find_none with (x := x) in E; [|exact Hin].
    rewrite Hxu, Hxd, Z.eqb_refl, date_eqb_refl in E. discriminate.
Qed.


End Duplicate.



(** * Further properties of the views *)

(** ** Signs of decimals *)

Lemma pow10_pos (k : Z) : 0 <= k -> 0 < 10 ^ k.
Proof. intros H. apply Z.pow_pos_nonneg; lia. Qed.

Lemma dle_D0_iff (d : Decimal) : dle D0 d = true <-> 0 <= coef d.
Proof.
  unfold dle, dcmp, align, D0. simpl coef. simpl dexp.
  pose proof (pow10_pos (dexp d - Z.min 0 (dexp d)) ltac:(lia)) as Hp.
  rewrite Z.mul_0_l.
  destruct (Z.compare_spec 0 (coef d * 10 ^ (dexp d - Z.min 0 (dexp d))))
    as [H|H|H]; split; intros G; try reflexivity; try discriminate; try nia.
Qed.

Lemma dgt_D0_iff (d : Decimal) : dgt d D0 = true <-> 0 < coef d.
Proof.
  unfold dgt, dcmp, align, D0. simpl coef. simpl dexp.
  pose proof (pow10_pos (dexp d - Z.min (dexp d) 0) ltac:(lia)) as Hp.
  rewrite Z.mul_0_l.
  destruct (Z.compare_spec (coef d * 10 ^ (dexp d - Z.min (dexp d) 0)) 0)
    as [H|H|H]; split; intros G; try reflexivity; try discriminate; try nia.
Qed.

Lemma round_half_even_nonneg (m k : Z) : 0 <= m -> 0 <= round_half_even m k.
Proof.
  intros Hm. unfold round_half_even.
  assert (0 <= m / 10 ^ k).
  { destruct (Z_lt_le_dec k 0) as [Hk|Hk].
    - rewrite Z.pow_neg_r by exact Hk. now rewrite Z.div_0_r.
    - apply Z.div_pos; [exact Hm | now apply pow10_pos]. }
  destruct (_ || _); lia.
Qed.

Lemma fix_nonneg (d : Decimal) : 0 <= coef d -> 0 <= coef (fix_ d).
Proof.
  intros Hd. unfold fix_.
  destruct (ndigits (coef d) <=? prec); [exact Hd|].
  pose proof (round_half_even_nonneg (Z.abs (coef d))
                (ndigits (coef d) - prec) (Z.abs_nonneg _)) as Hr.
  destruct (prec <? ndigits _); simpl.
  - assert (0 <= round_half_even (Z.abs (coef d)) (ndigits (coef d) - prec) / 10)
      by (apply Z.div_pos; lia).
    pose proof (Z.sgn_nonneg (coef d)). nia.
  - pose proof (Z.sgn_nonneg (coef d)). nia.
Qed.

(** A sum of decimals at or above zero is at or above zero. *)
Lemma dadd_nonneg (a b : Decimal) :
  0 <= coef a -> 0 <= coef b -> 0 <= coef (dadd a b).
Proof.
  intros Ha Hb. unfold dadd, align. apply fix_nonneg. simpl.
  pose proof (pow10_pos (dexp a - Z.min (dexp a) (dexp b)) ltac:(lia)).
  pose proof (pow10_pos (dexp b - Z.min (dexp a) (dexp b)) ltac:(lia)).
  nia.
Qed.

(** Taking off no more than there is leaves zero or more. *)
Lemma dsub_nonneg (a b : Decimal) : dle b a = true -> 0 <= coef (dsub a b).
Proof.
  intros H. unfold dsub, dadd, dneg, align. simpl coef. simpl dexp.
  apply fix_nonneg. simpl.
  unfold dle, dcmp, align in H. rewrite (Z.min_comm (dexp b) (dexp a)) in H.
  destruct (Z.compare_spec (coef b * 10 ^ (dexp b - Z.min (dexp a) (dexp b)))
                           (coef a * 10 ^ (dexp a - Z.min (dexp a) (dexp b))))
    as [E|E|E]; try discriminate; lia.
Qed.

(** ** Restock, further *)






Lemma forallb_map_replace (f : Product.t -> bool) (p : Product.t)
    (l : list Product.t) :
  forallb f l = true -> f p = true ->
  forallb f (map (fun x => if Product.id x =? Product.id p then p else x) l)
  = true.
Proof.
  intros Hl Hp. rewrite forallb_forall in *. intros y Hy.
  apply in_map_iff in Hy. destruct Hy as (x & <- & Hx).
  destruct (Product.id x =? Product.id p); [exact Hp | now apply Hl].
Qed.

(** X3: restock keeps every stock at or above zero: from a catalogue
    without a negative stock, no request to restock produces one. *)
Theorem restock_keeps_stock_nonneg
    (u : User.t) (i : pk) (q : option Decimal) (now : datetime) (db : DB) :
  stock_nonneg db = true ->
  stock_nonneg (snd (ProductViewSet.restock u i q now db)) = true.
Proof.
  intros Hdb. unfold ProductViewSet.restock.
  destruct (get_product i db) as [p|] eqn:Hp; [|exact Hdb].
  destruct (dle _ D0) eqn:Hq; [exact Hdb|].
  cbv zeta. cbn [snd]. unfold stock_nonneg. cbn [products].
  apply forallb_map_replace; [exact Hdb|].
  cbn [Product.stock Product.with_stock]. apply dle_D0_iff.
  apply dadd_nonneg.
  - apply dle_D0_iff. unfold stock_nonneg in Hdb.
    rewrite forallb_forall in Hdb. apply Hdb.
    unfold get_product in Hp. now apply find_some in Hp.
  - rewrite dle_dgt in Hq. apply negb_false_iff in Hq.
    apply dgt_D0_iff in Hq. lia.
Qed.

Lemma restock_keeps_stock_nonneg_witness :
  stock_nonneg Sample.shop = true
  /\ stock_nonneg
       (snd (ProductViewSet.restock Sample.bob 2 (Some (mkDecimal 2500 (-3)))
               1000 Sample.shop)) = true.
Proof.
  split; [reflexivity|].
  apply (restock_keeps_stock_nonneg Sample.bob 2 (Some (mkDecimal 2500 (-3)))
           1000 Sample.shop).
  reflexivity.
Defined.

(** ** Cart, further *)

Lemma filter_map_same {A : Type} (f : A -> bool) (g : A -> A) (l : list A) :
  (forall x, In x l -> (f x = true -> g x = x) /\ f (g x) = f x) ->
  filter f (map g l) = filter f l.
Proof.
  induction l as [|a l IH]; intros H; [reflexivity|].
  cbn [map filter]. destruct (H a (or_introl eq_refl)) as [H1 H2].
  rewrite H2, IH by (intros x Hx; apply H; now right).
  destruct (f a) eqn:E; [now rewrite H1|reflexivity].
Qed.

(** X4: add-to-cart keeps the constraints of the cart table (primary key,
    one row per user and product, existing product) and, under them,
    leaves the carts of the other users as they were. *)
Theorem add_to_cart_keeps_constraints
    (u : User.t) (i : option pk) (q : option Decimal) (db : DB) :
  cart_ok db ->
  let db' := snd (CartViewSet.create u i q db) in
  cart_ok db'
  /\ forall u' : User.t,
       User.id u' <> User.id u ->
       CartViewSet.get_queryset u' db' = CartViewSet.get_queryset u' db.
Proof.
  intros Hok. cbv zeta. split; [now apply create_keeps_cart_ok|].
  intros u' Hu'. destruct Hok as (Hid & Hkey & Hfk).
  assert (Hne : (User.id u =? User.id u') = false) by (apply Z.eqb_neq; lia).
  unfold CartViewSet.create, CartViewSet.get_queryset.
  destruct (match i with Some i0 => get_product i0 db | None => None end)
    as [p|]; [|reflexivity].
  unfold CartViewSet.get_or_create.
  destruct (CartViewSet.matching_rows (User.id u) (Product.id p) db)
    as [|c [|c' l]] eqn:E; [| |reflexivity].
  - cbn [negb snd cart_items]. rewrite filter_app. cbn [filter CartItem.user].
    rewrite Hne. apply app_nil_r.
  - assert (Hc : In c (CartViewSet.matching_rows (User.id u) (Product.id p) db))
      by (rewrite E; now left).
    apply matching_rows_in in Hc. destruct Hc as (Hc & Hcu & _).
    cbn [negb]. destruct (dgt _ (Product.stock p)); [reflexivity|].
    cbn [snd]. unfold CartViewSet.save_cart_item. cbn [cart_items].
    apply filter_map_same. intros x Hx.
    destruct (CartItem.id x =? _) eqn:Ex; [|now split].
    apply Z.eqb_eq in Ex. cbn in Ex.
    rewrite (nodup_map_injective CartItem.id _ x c Hid Hx Hc Ex).
    cbn [CartItem.user CartItem.with_quantity]. rewrite Hcu, Hne.
    split; [discriminate | reflexivity].
Qed.

(** Bob's cart is untouched when Alice adds to hers. *)
Lemma add_to_cart_keeps_constraints_witness :
  cart_ok Sample.shop_with_cart
  /\ cart_ok (snd (CartViewSet.create Sample.alice (Some 1)
                     (Some (mkDecimal 2 0)) Sample.shop_with_cart))
  /\ CartViewSet.get_queryset Sample.bob
       (snd (CartViewSet.create Sample.alice (Some 1) (Some (mkDecimal 2 0))
               Sample.shop_with_cart))
     = CartViewSet.get_queryset Sample.bob Sample.shop_with_cart.
Proof.
  assert (Hok : cart_ok Sample.shop_with_cart).
  { split; [|exact shop_with_cart_constraints].
    simpl. repeat constructor; simpl; intuition discriminate. }
  split; [exact Hok|].
  destruct (add_to_cart_keeps_constraints Sample.alice (Some 1)
              (Some (mkDecimal 2 0)) Sample.shop_with_cart Hok) as [H1 H2].
  split; [exact H1|]. apply H2. discriminate.
Defined.


(** ** Checkout, further *)

(** The three ways a checkout ends. *)
Lemma checkout_cases (u : User.t) (now : datetime) (db : DB) :
  (CartViewSet.get_queryset u db = []
   /\ OrderViewSet.checkout u now db
      = (mkResponse (Error "Cart is empty") HTTP_400_BAD_REQUEST, db))
  \/ (OrderViewSet.load_products (CartViewSet.get_queryset u db) db = None
      /\ OrderViewSet.checkout u now db
         = (mkResponse (Error "DoesNotExist") HTTP_500_INTERNAL_SERVER_ERROR, db))
  \/ (exists (rows : list (CartItem.t * Product.t)) (o : Order.t),
        CartViewSet.get_queryset u db <> []
        /\ OrderViewSet.load_products (CartViewSet.get_queryset u db) db
           = Some rows
        /\ status_code (fst (OrderViewSet.checkout u now db)) = HTTP_201_CREATED
        /\ snd (OrderViewSet.checkout u now db)
           = OrderViewSet.delete_cart (User.id u)
               (fold_left (OrderViewSet.checkout_step (Order.id o)) rows
                  (mkDB (users db) (products db) (cart_items db)
                        (orders db ++ [o]) (order_items db)
                        (attendance_records db) (restock_records db)))).
Proof.
  unfold OrderViewSet.checkout.
  change (filter (fun c => CartItem.user c =? User.id u) (cart_items db))
    with (CartViewSet.get_queryset u db).
  destruct (CartViewSet.get_queryset u db) as [|c cart] eqn:E; [left; now split|].
  right. destruct (OrderViewSet.load_products (c :: cart) db) as [rows|] eqn:L.
  - right. eexists rows, _. split; [discriminate|]. split; [reflexivity|].
    cbv zeta. cbn [fst snd status_code]. split; reflexivity.
  - left. now split.
Qed.




(** X7: checkout on an empty cart answers 400 "Cart is empty" and changes
    nothing; and right after a checkout that went through, under the
    constraints of the cart table, a second checkout of the same user is
    answered so, leaving the one order of the first. *)
Theorem checkout_of_empty_cart_fails
    (u : User.t) (now later : datetime) (db : DB) :
  (CartViewSet.get_queryset u db = [] ->
   OrderViewSet.checkout u now db
   = (mkResponse (Error "Cart is empty") HTTP_400_BAD_REQUEST, db))
  /\ (cart_unique_together db ->
      cart_products_exist db ->
      CartViewSet.get_queryset u db <> [] ->
      let db' := snd (OrderViewSet.checkout u now db) in
      OrderViewSet.checkout u later db'
      = (mkResponse (Error "Cart is empty") HTTP_400_BAD_REQUEST, db')
      /\ List.length (orders db') = S (List.length (orders db))).
Proof.
  assert (Hempty : forall t d, CartViewSet.get_queryset u d = [] ->
            OrderViewSet.checkout u t d
            = (mkResponse (Error "Cart is empty") HTTP_400_BAD_REQUEST, d)).
  { intros t d H. unfold OrderViewSet.checkout.
    change (filter (fun c => CartItem.user c =? User.id u) (cart_items d))
      with (CartViewSet.get_queryset u d). now rewrite H. }
  split; [apply Hempty|].
  intros Huniq Hfk Hne. cbv zeta.
  destruct (checkout_general u now db _ Huniq Hfk eq_refl Hne)
    as (o & ts & items & db' & H1 & H2 & _ & _ & _ & _ & _ & _ & _ & _ & _
        & _ & H13).
  rewrite H1. cbn [snd]. split; [now apply Hempty|].
  rewrite H2, length_app. cbn. lia.
Qed.

Lemma checkout_of_empty_cart_fails_witness :
  let db' := snd (OrderViewSet.checkout Sample.alice 1000 Sample.shop_with_cart) in
  OrderViewSet.checkout Sample.alice 1001 db'
  = (mkResponse (Error "Cart is empty") HTTP_400_BAD_REQUEST, db')
  /\ OrderViewSet.checkout Sample.alice 1000 Sample.shop
     = (mkResponse (Error "Cart is empty") HTTP_400_BAD_REQUEST, Sample.shop).
Proof.
  destruct (checkout_of_empty_cart_fails Sample.alice 1000 1001
              Sample.shop_with_cart) as [_ H].
  split.
  - apply H; [exact (proj1 shop_with_cart_constraints)
             | exact (proj2 shop_with_cart_constraints) | discriminate].
  - apply (proj1 (checkout_of_empty_cart_fails Sample.alice 1000 1001
                    Sample.shop)). reflexivity.
Defined.



Lemma checkout_loop_nonneg (oid : pk) (rows : list (CartItem.t * Product.t))
    (db : DB) :
  stock_nonneg db = true ->
  Forall (fun r => dle (CartItem.quantity (fst r)) (Product.stock (snd r)) = true)
         rows ->
  stock_nonneg (fold_left (OrderViewSet.checkout_step oid) rows db) = true.
Proof.
  revert db. induction rows as [|[c p] rows IH]; intros db Hdb Hall;
    cbn [fold_left]; [exact Hdb|].
  inversion Hall as [|? ? Hcp Hrest]; subst. apply IH; [|exact Hrest].
  unfold OrderViewSet.checkout_step, stock_nonneg. cbn [products save_product].
  apply forallb_map_replace; [exact Hdb|].
  cbn [Product.stock Product.with_stock]. apply dle_D0_iff.
  now apply dsub_nonneg.
Qed.

(** X9: checkout keeps every stock at or above zero when no row of the
    cart asks for more than its product has: from a catalogue without a
    negative stock, such a checkout produces none. *)
Theorem checkout_within_stock_keeps_stock_nonneg
    (u : User.t) (now : datetime) (db : DB) :
  stock_nonneg db = true ->
  (forall c p, In c (CartViewSet.get_queryset u db) ->
     get_product (CartItem.product c) db = Some p ->
     dle (CartItem.quantity c) (Product.stock p) = true) ->
  stock_nonneg (snd (OrderViewSet.checkout u now db)) = true.
Proof.
  intros Hdb Hwithin.
  destruct (checkout_cases u now db)
    as [[_ ->]|[[_ ->]|(rows & o & _ & Hrows & _ & ->)]]; try exact Hdb.
  destruct (load_products_rows db _ rows Hrows) as [Hfst Hall].
  change (stock_nonneg
            (fold_left (OrderViewSet.checkout_step (Order.id o)) rows
               (mkDB (users db) (products db) (cart_items db)
                     (orders db ++ [o]) (order_items db)
                     (attendance_records db) (restock_records db))) = true).
  apply checkout_loop_nonneg; [exact Hdb|].
  rewrite Forall_forall in *. intros r Hr.
  apply Hwithin; [|now apply Hall].
  rewrite <- Hfst. now apply in_map.
Qed.

Lemma checkout_within_stock_keeps_stock_nonneg_witness :
  stock_nonneg Sample.shop_with_cart = true
  /\ stock_nonneg
       (snd (OrderViewSet.checkout Sample.alice 1000 Sample.shop_with_cart))
     = true.
Proof.
  split; [reflexivity|].
  apply (checkout_within_stock_keeps_stock_nonneg Sample.alice 1000
           Sample.shop_with_cart); [reflexivity|].
  intros c p [<-|[<-|[]]] Hp; injection Hp as <-; reflexivity.
Defined.

Lemma get_product_save_exists (p : Product.t) (j : pk) (db : DB) :
  get_product j db <> None -> get_product j (save_product p db) <> None.
Proof.
  unfold get_product. cbn [products save_product]. rewrite find_map_replace.
  destruct (Product.id p =? j); [|tauto].
  destruct (find _ (products db)); [discriminate | tauto].
Qed.

Lemma checkout_loop_exists (oid : pk) (rows : list (CartItem.t * Product.t))
    (db : DB) (j : pk) :
  get_product j db <> None ->
  get_product j (fold_left (OrderViewSet.checkout_step oid) rows db) <> None.
Proof.
  revert db. induction rows as [|[c p] rows IH]; intros db H; cbn [fold_left];
    [exact H|].
  apply IH. unfold OrderViewSet.checkout_step.
  now apply get_product_save_exists.
Qed.

Lemma nodup_map_filter {A B : Type} (f : A -> B) (g : A -> bool) (l : list A) :
  NoDup (map f l) -> NoDup (map f (filter g l)).
Proof.
  induction l as [|x l IH]; cbn [map filter]; intros H; [constructor|].
  apply NoDup_cons_iff in H. destruct H as [Hx Hl].
  destruct (g x); [|now apply IH].
  cbn [map]. constructor; [|now apply IH].
  intros Hin. apply Hx. apply in_map_iff in Hin.
  destruct Hin as (y & Hy & Hin). apply filter_In in Hin.
  rewrite <- Hy. apply in_map. tauto.
Qed.

(** X10: checkout keeps the constraints of the cart table: primary key,
    one row per user and product, and a product row behind every cart
    row. *)
Theorem checkout_keeps_constraints (u : User.t) (now : datetime) (db : DB) :
  cart_ok db -> cart_ok (snd (OrderViewSet.checkout u now db)).
Proof.
  intros Hok.
  destruct (checkout_cases u now db)
    as [[_ ->]|[[_ ->]|(rows & o & _ & _ & _ & ->)]]; try exact Hok.
  destruct Hok as (Hid & Hkey & Hfk).
  match goal with
  | |- context [fold_left ?f rows ?d] =>
      destruct (checkout_loop_frame (Order.id o) rows d) as (_ & F2 & _)
  end.
  cbv zeta in F2. cbn [cart_items] in F2.
  unfold cart_ok, cart_unique_together, cart_products_exist,
    OrderViewSet.delete_cart.
  cbn [cart_items]. rewrite F2.
  split; [now apply nodup_map_filter|]. split; [now apply nodup_map_filter|].
  intros c Hc. apply filter_In in Hc. destruct Hc as [Hc _].
  match goal with
  | |- get_product ?j (mkDB _ (products ?d) _ _ _ _ _) <> None =>
      change (get_product j d <> None)
  end.
  apply checkout_loop_exists. exact (Hfk c Hc).
Qed.

Lemma checkout_keeps_constraints_witness :
  cart_ok (snd (OrderViewSet.checkout Sample.alice 1000 Sample.shop_with_cart))
  /\ status_code (fst (OrderViewSet.checkout Sample.alice 1000
                         Sample.shop_with_cart)) = HTTP_201_CREATED.
Proof.
  split; [|reflexivity].
  apply (checkout_keeps_constraints Sample.alice 1000 Sample.shop_with_cart).
  split; [|exact shop_with_cart_constraints].
  simpl. repeat constructor; simpl; intuition discriminate.
Defined.

(** ** Attendance, further *)

Lemma date_eqb_eq (a b : date) : date_eqb a b = true <-> a = b.
Proof.
  unfold date_eqb. rewrite !andb_true_iff, !Z.eqb_eq.
  destruct a, b; simpl. split.
  - intros [[-> ->] ->]. reflexivity.
  - intros H. injection H as -> -> ->. auto.
Qed.

Section AttendanceCreate.

Variable parse_date : string -> option date.
Variable is_valid : AttendanceRecordViewSet.Request -> DB
                    -> AttendanceRecordViewSet.Errors
                       + AttendanceRecordViewSet.ValidatedData.
Variable unique_violation_message : string.

Let create := AttendanceRecordViewSet.create parse_date is_valid
                unique_violation_message.

(** The ways a create ends: with the store as it was and a status of 400
    or 409, or with 201 and one more record, built from the validated
    data, whose user and date no record had. *)
Lemma create_cases (request : AttendanceRecordViewSet.Request) (db : DB) :
  (snd (create request db) = db
   /\ (status_code (fst (create request db)) = HTTP_400_BAD_REQUEST
       \/ status_code (fst (create request db)) = HTTP_409_CONFLICT))
  \/ (exists (v : AttendanceRecordViewSet.ValidatedData) (r : AttendanceRecord.t),
        is_valid request db = inr v
        /\ AttendanceRecordViewSet.create_precheck parse_date request db = None
        /\ create request db
           = (mkResponse (Data r) HTTP_201_CREATED,
              mkDB (users db) (products db) (cart_items db) (orders db)
                   (order_items db) (attendance_records db ++ [r])
                   (restock_records db))
        /\ AttendanceRecord.user r = User.id (AttendanceRecordViewSet.v_user v)
        /\ AttendanceRecord.date_ r = AttendanceRecordViewSet.v_date v
        /\ existsb (fun x => (AttendanceRecord.user x =? AttendanceRecord.user r)
                             && date_eqb (AttendanceRecord.date_ x)
                                         (AttendanceRecord.date_ r))
                   (attendance_records db) = false).
Proof.
  unfold create, AttendanceRecordViewSet.create.
  destruct (AttendanceRecordViewSet.create_precheck parse_date request db)
    as [resp|] eqn:Epre.
  - left. split; [reflexivity|]. right.
    unfold AttendanceRecordViewSet.create_precheck in Epre.
    destruct (AttendanceRecordViewSet.req_user_id request); [|discriminate].
    destruct (AttendanceRecordViewSet.req_date request); [|discriminate].
    destruct (_ && _); [|discriminate].
    destruct (parse_date s); [|discriminate].
    destruct (find _ _); [|discriminate].
    now injection Epre as <-.
  - unfold AttendanceRecordViewSet.create_save.
    destruct (is_valid request db) as [errors|v] eqn:Ev.
    + left. split; [reflexivity | now left].
    + unfold AttendanceRecordViewSet.serializer_create,
        AttendanceRecordViewSet.objects_create.
      cbv zeta.
      destruct (existsb _ (attendance_records db)) eqn:Eex.
      * left. destruct (_ || _); split; auto.
      * right. eexists v, _. split; [reflexivity|]. split; [reflexivity|].
        split; [reflexivity|]. split; [reflexivity|]. split; [reflexivity|].
        exact Eex.
Qed.

(** X11: the view never stores a second record for a user and a date:
    whatever the request, the validation and the wording of the database,
    a store with one record at most per user and date stays so. *)
Theorem attendance_create_keeps_unique_together
    (request : AttendanceRecordViewSet.Request) (db : DB) :
  attendance_unique_together db ->
  attendance_unique_together (snd (create request db)).
Proof.
  intros Hu. destruct (create_cases request db)
    as [[-> _]|(v & r & _ & _ & -> & _ & _ & Hex)]; [exact Hu|].
  unfold attendance_unique_together in *. cbn [snd attendance_records].
  rewrite map_app. apply nodup_snoc; [exact Hu|]. cbn [map].
  intros Hin. apply in_map_iff in Hin. destruct Hin as (x & Hx & Hin).
  injection Hx as Hxu Hxd.
  assert (Hfalse : existsb
            (fun x => (AttendanceRecord.user x =? AttendanceRecord.user r)
                      && date_eqb (AttendanceRecord.date_ x)
                                  (AttendanceRecord.date_ r))
            (attendance_records db) = true).
  { apply existsb_exists. exists x. split; [exact Hin|].
    now rewrite Hxu, Hxd, Z.eqb_refl, date_eqb_refl. }
  congruence.
Qed.

(** X12: whatever the request, create answers 201, 400 or 409; unless it
    answers 201 the store is as it was; when it answers 201 it has
    appended exactly the record it returns and touched no other table. *)
Theorem attendance_create_writes_only_on_success
    (request : AttendanceRecordViewSet.Request) (db : DB) :
  let r := create request db in
  In (status_code (fst r))
     [HTTP_201_CREATED; HTTP_400_BAD_REQUEST; HTTP_409_CONFLICT]
  /\ (status_code (fst r) <> HTTP_201_CREATED -> snd r = db)
  /\ (status_code (fst r) = HTTP_201_CREATED ->
      exists x : AttendanceRecord.t,
        data (fst r) = Data x
        /\ snd r = mkDB (users db) (products db) (cart_items db) (orders db)
                        (order_items db) (attendance_records db ++ [x])
                        (restock_records db)).
Proof.
  cbv zeta. destruct (create_cases request db)
    as [[Hdb [Hs|Hs]]|(v & r & _ & _ & Hc & _)].
  - rewrite Hs, Hdb. cbn. repeat split; [tauto | discriminate].
  - rewrite Hs, Hdb. cbn. repeat split; [tauto | discriminate].
  - rewrite Hc. cbn [fst snd status_code data].
    split; [now left|]. split; [intros H; now contradiction H|].
    intros _. now exists r.
Qed.

(** X13: once a request has created a record, the same request again,
    named by user id and date as the validated data has them, is answered
    409 with the conflict message and adds nothing, already at the check
    before validation. *)
Theorem attendance_create_twice_conflicts
    (request : AttendanceRecordViewSet.Request) (db : DB)
    (v : AttendanceRecordViewSet.ValidatedData) (raw : string) :
  is_valid request db = inr v ->
  AttendanceRecordViewSet.req_user_id request
  = Some (User.id (AttendanceRecordViewSet.v_user v)) ->
  User.id (AttendanceRecordViewSet.v_user v) <> 0 ->
  AttendanceRecordViewSet.req_date request = Some raw ->
  raw <> "" ->
  parse_date raw = Some (AttendanceRecordViewSet.v_date v) ->
  status_code (fst (create request db)) = HTTP_201_CREATED ->
  let db' := snd (create request db) in
  create request db'
  = (mkResponse
       (Error ("Attendance record already exists for this employee on " ++ raw))
       HTTP_409_CONFLICT, db').
Proof.
  intros Hv Hu Hnz Hd Hne Hparse Hs. cbv zeta.
  destruct (create_cases request db)
    as [[_ [H|H]]|(v' & r & Hv' & _ & Hc & Hru & Hrd & _)];
    try (rewrite H in Hs; discriminate).
  rewrite Hc. cbn [snd].
  assert (v' = v) by congruence. subst v'.
  unfold create.
  rewrite (duplicate_seen_by_precheck parse_date is_valid
             unique_violation_message request _
             (User.id (AttendanceRecordViewSet.v_user v)) raw
             (AttendanceRecordViewSet.v_date v) r Hu Hnz Hd Hne Hparse);
    [| cbn [attendance_records]; apply in_or_app; right; now left
     | exact Hru | exact Hrd].
  unfold AttendanceRecordViewSet.conflict_message,
    AttendanceRecordViewSet.format_date, AttendanceRecordViewSet.default.
  now rewrite Hd.
Qed.

End AttendanceCreate.

Lemma attendance_create_keeps_unique_together_witness :
  attendance_unique_together Sample.shop_with_attendance
  /\ attendance_unique_together
       (snd (AttendanceRecordViewSet.create Sample.parse_date Sample.is_valid
               Sample.sqlite_unique_message Sample.duplicate_request
               Sample.shop_with_attendance)).
Proof.
  assert (H : attendance_unique_together Sample.shop_with_attendance).
  { unfold attendance_unique_together. simpl.
    repeat constructor; simpl; tauto. }
  split; [exact H|].
  exact (attendance_create_keeps_unique_together Sample.parse_date
           Sample.is_valid Sample.sqlite_unique_message
           Sample.duplicate_request Sample.shop_with_attendance H).
Defined.

(** Bob is recorded for 5 May 2024 in a store without records, and then
    once more. *)
Lemma attendance_create_twice_conflicts_witness :
  let db' :=
    snd (AttendanceRecordViewSet.create Sample.parse_date Sample.is_valid
           Sample.sqlite_unique_message Sample.duplicate_request Sample.shop) in
  List.length (attendance_records db') = 1%nat
  /\ AttendanceRecordViewSet.create Sample.parse_date Sample.is_valid
       Sample.sqlite_unique_message Sample.duplicate_request db'
     = (mkResponse
          (Error "Attendance record already exists for this employee on 2024-05-05")
          HTTP_409_CONFLICT, db').
Proof.
  split; [reflexivity|].
  apply (attendance_create_twice_conflicts Sample.parse_date Sample.is_valid
           Sample.sqlite_unique_message Sample.duplicate_request Sample.shop
           (AttendanceRecordViewSet.mkValidatedData
              Sample.bob None Sample.may_5 None None None None None None None
              None)
           "2024-05-05");
    first [reflexivity | discriminate].
Defined.

(** X14: the message of a failed validation is "<field>: <message>" for
    the first field that has a message; fields without one are passed
    over, and without any message at all it is "Validation error". *)
Theorem first_error_skips_empty_fields
    (skipped : list string) (field e : string) (es : list string)
    (rest : AttendanceRecordViewSet.Errors) :
  AttendanceRecordViewSet.first_error
    (map (fun f => (f, [])) skipped ++ (field, e :: es) :: rest)
  = (field ++ ": " ++ e)%string
  /\ AttendanceRecordViewSet.first_error (map (fun f => (f, [])) skipped)
     = "Validation error".
Proof.
  induction skipped as [|f skipped [IH1 IH2]]; [now split|].
  cbn [map app AttendanceRecordViewSet.first_error]. now split.
Qed.

Lemma length_filter_split {A : Type} (f : A -> bool) (l : list A) :
  (List.length (filter f l) + List.length (filter (fun x => negb (f x)) l)
   = List.length l)%nat.
Proof.
  induction l as [|x l IH]; [reflexivity|]. cbn [filter].
  destruct (f x); cbn [negb List.length]; lia.
Qed.

(** X15: in every entry of the monthly summary the present and the absent
    days add up to the number of records the user has in the month; and a
    request without the month parameter is answered for the month of the
    current date. *)
Theorem monthly_summary_days_add_up
    (month_param : option (Z * Z)) (today : date) (db : DB) :
  let ym := match month_param with
            | Some ym => ym
            | None => (year today, month today)
            end in
  AttendanceRecordViewSet.monthly_summary month_param today db
  = AttendanceRecordViewSet.monthly_summary (Some ym) today db
  /\ exists summaries,
       AttendanceRecordViewSet.monthly_summary month_param today db
       = mkResponse (Data summaries) HTTP_200_OK
       /\ Forall2
            (fun u s =>
               AttendanceRecordViewSet.user_id s = User.id u
               /\ AttendanceRecordViewSet.present_days s
                  + AttendanceRecordViewSet.absent_days s
                  = Z.of_nat (List.length
                                (AttendanceRecordViewSet.month_records
                                   u (fst ym) (snd ym) db)))
            (filter User.is_enabled (users db)) summaries.
Proof.
  cbv zeta. unfold AttendanceRecordViewSet.monthly_summary.
  destruct (match month_param with
            | Some ym => ym
            | None => (year today, month today)
            end) as [y m] eqn:E.
  split; [reflexivity|].
  eexists. split; [reflexivity|]. cbn [fst snd].
  induction (filter User.is_enabled (users db)) as [|u l IH]; cbn [map];
    constructor; [|exact IH].
  split; [reflexivity|].
  cbn [AttendanceRecordViewSet.summarize AttendanceRecordViewSet.present_days
       AttendanceRecordViewSet.absent_days].
  rewrite <- Nat2Z.inj_add. f_equal. apply length_filter_split.
Qed.

(** ** Roles and permissions *)

(** X16: the privileges grow with the role: who may manage users may
    manage stock; managing stock, restocking and the attendance tracker
    go together; the permission for Developer or Admin implies the one
    that adds Moderator; and the role User has none of them. *)
Theorem privileges_are_monotonic (u : User.t) :
  (User.can_manage_users u = true -> User.can_manage_stock u = true)
  /\ User.can_restock u = User.can_manage_stock u
  /\ User.can_use_attendance_tracker u = User.can_manage_stock u
  /\ (IsDeveloperOrAdmin.has_permission (Some u) = true ->
      IsDeveloperAdminOrModerator.has_permission (Some u) = true)
  /\ IsDeveloperOrAdmin.has_permission (Some u) = User.can_manage_users u
  /\ IsDeveloperAdminOrModerator.has_permission (Some u)
     = User.can_manage_stock u
  /\ (User.role u = "User" ->
      User.can_manage_users u = false /\ User.can_manage_stock u = false).
Proof.
  unfold User.can_manage_users, User.can_manage_stock, User.can_restock,
    User.can_use_attendance_tracker, IsDeveloperOrAdmin.has_permission,
    IsDeveloperAdminOrModerator.has_permission,
    User.is_developer, User.is_admin, User.is_moderator.
  repeat split; try (intros H; rewrite H; reflexivity);
    match goal with H : User.role u = _ |- _ => now rewrite H end.
Qed.

Lemma privileges_are_monotonic_witness :
  User.can_manage_users Sample.carol = true
  /\ User.can_manage_stock Sample.carol = true
  /\ User.can_manage_stock Sample.alice = false.
Proof.
  destruct (privileges_are_monotonic Sample.carol) as (H1 & _).
  destruct (privileges_are_monotonic Sample.alice) as (_ & _ & _ & _ & _ & _ & H7).
  split; [reflexivity|]. split; [now apply H1|]. now apply H7.
Defined.

(** ** Login *)

Section LoginProperties.

Variable authenticate : string -> string -> option User.t.
Variable for_user : User.t -> string * string.

(** X17: login answers 200 only for credentials that the framework
    accepts for an enabled user, and then returns that user; missing or
    empty credentials are answered 400; and a disabled account gets the
    very answer of wrong credentials, 401 with one message. *)
Theorem login_needs_enabled_account (username password : option string) :
  let r := AuthView.post authenticate for_user username password in
  (status_code r = HTTP_200_OK ->
   exists n p user,
     username = Some n /\ password = Some p
     /\ authenticate n p = Some user
     /\ User.is_enabled user = true
     /\ r = mkResponse
              (Data (AuthView.mkLoginData (fst (for_user user))
                                          (snd (for_user user)) user))
              HTTP_200_OK)
  /\ (AuthView.falsy username || AuthView.falsy password = true ->
      r = mkResponse (Error "Username and password required")
                     HTTP_400_BAD_REQUEST)
  /\ (forall n p,
        username = Some n -> password = Some p -> n <> "" -> p <> "" ->
        match authenticate n p with
        | Some user => User.is_enabled user = false
        | None => True
        end ->
        r = mkResponse (Error "Invalid credentials or account disabled")
                       HTTP_401_UNAUTHORIZED).
Proof.
  cbv zeta. unfold AuthView.post. split; [|split].
  - destruct (AuthView.falsy username || AuthView.falsy password);
      [discriminate|].
    destruct username as [n|], password as [p|]; try discriminate.
    destruct (authenticate n p) as [user|] eqn:Ea; [|discriminate].
    destruct (User.is_enabled user) eqn:Ee; [|discriminate].
    intros _. exists n, p, user.
    destruct (for_user user) as [refresh access]. repeat split; assumption.
  - intros ->. reflexivity.
  - intros n p -> -> Hn Hp Hauth. unfold AuthView.falsy.
    apply String.eqb_neq in Hn, Hp. rewrite Hn, Hp. cbn [orb].
    destruct (authenticate n p) as [user|]; [now rewrite Hauth | reflexivity].
Qed.

End LoginProperties.

(** Carol's account is disabled: her right password is answered like a
    wrong one for Alice. *)
Lemma login_needs_enabled_account_witness :
  let authenticate (n p : string) : option User.t :=
    if String.eqb n "carol" && String.eqb p "secret" then Some Sample.carol
    else None in
  let for_user (u : User.t) : string * string := ("refresh", "access") in
  AuthView.post authenticate for_user (Some "carol") (Some "secret")
  = AuthView.post authenticate for_user (Some "alice") (Some "guess")
  /\ status_code (AuthView.post authenticate for_user (Some "carol")
                                (Some "secret")) = HTTP_401_UNAUTHORIZED.
Proof.
  cbv zeta.
  set (authenticate := fun n p : string =>
         if String.eqb n "carol" && String.eqb p "secret"
         then Some Sample.carol else None).
  set (for_user := fun _ : User.t => ("refresh", "access")).
  destruct (login_needs_enabled_account authenticate for_user
              (Some "carol") (Some "secret")) as (_ & _ & H1).
  destruct (login_needs_enabled_account authenticate for_user
              (Some "alice") (Some "guess")) as (_ & _ & H2).
  cbv zeta in H1, H2.
  rewrite (H1 "carol" "secret" eq_refl eq_refl) by first [discriminate | reflexivity].
  rewrite (H2 "alice" "guess" eq_refl eq_refl) by first [discriminate | exact I].
  split; reflexivity.
Defined.

(** ** Users *)

(** The list of users shows a Developer every account and everyone
    else every account but the Developer ones. *)
Theorem developers_are_hidden (u : User.t) (db : DB) (x : User.t) :
  In x (UserViewSet.get_queryset u db)
  <-> In x (users db)
      /\ (User.role u = "Developer" \/ User.role x <> "Developer").
Proof.
  unfold UserViewSet.get_queryset, User.is_developer.
  destruct (String.eqb_spec (User.role u) "Developer") as [Hu|Hu]; cbn [negb].
  - tauto.
  - rewrite filter_In, negb_true_iff. 
    destruct (String.eqb_spec (User.role x) "Developer"); split;
      intros [H1 H2]; split; auto; try discriminate.
    destruct H2; contradiction.
Qed.

Lemma toggle_find (u : User.t) (i : pk) (db : DB) (x : User.t) :
  find (fun y => User.id y =? i) (UserViewSet.get_queryset u db) = Some x ->
  In x (users db) /\ User.id x = i
  /\ (User.role u = "Developer" \/ User.role x <> "Developer").
Proof.
  intros H. apply find_some in H. destruct H as [Hin Hid].
  apply developers_are_hidden in Hin. apply Z.eqb_eq in Hid. tauto.
Qed.

(** X18: toggling never changes the own account, and never one that the
    list does not show: a request for one's own key changes nothing and
    is answered 400 (or 404 when the own account is not in the list), and
    a request of someone who is not a Developer for a key that only
    Developer accounts carry is answered 404 and changes nothing. *)
Theorem toggle_status_guards (u : User.t) (i : pk) (db : DB) :
  (i = User.id u ->
   snd (UserViewSet.toggle_status u i db) = db
   /\ (status_code (fst (UserViewSet.toggle_status u i db))
       = HTTP_400_BAD_REQUEST
       \/ status_code (fst (UserViewSet.toggle_status u i db))
          = HTTP_404_NOT_FOUND))
  /\ (User.role u <> "Developer" ->
      (forall x, In x (users db) -> User.id x = i ->
                 User.role x = "Developer") ->
      UserViewSet.toggle_status u i db
      = (mkResponse (Error "Not found.") HTTP_404_NOT_FOUND, db)).
Proof.
  unfold UserViewSet.toggle_status. split.
  - intros ->.
    destruct (find _ (UserViewSet.get_queryset u db)) as [x|] eqn:E.
    + apply toggle_find in E. destruct E as (_ & -> & _).
      rewrite Z.eqb_refl. split; [reflexivity | now left].
    + split; [reflexivity | now right].
  - intros Hu Hdev.
    destruct (find _ (UserViewSet.get_queryset u db)) as [x|] eqn:E;
      [|reflexivity].
    apply toggle_find in E. destruct E as (Hin & Hid & [H|H]);
      [contradiction|].
    exfalso. apply H. now apply Hdev.
Qed.

(** Carol, an Admin, cannot reach the Developer account of key 9. *)
Lemma toggle_status_guards_witness :
  let dev := User.mk 9 "ama" "Developer" "ahmad" D0_00 true in
  let db := mkDB [Sample.alice; Sample.carol; dev] [] [] [] [] [] [] in
  UserViewSet.toggle_status Sample.carol 9 db
  = (mkResponse (Error "Not found.") HTTP_404_NOT_FOUND, db)
  /\ snd (UserViewSet.toggle_status Sample.carol 3 db) = db.
Proof.
  cbv zeta.
  set (db := mkDB _ [] [] [] [] [] []).
  split.
  - apply (proj2 (toggle_status_guards Sample.carol 9 db)); [discriminate|].
    intros x [<-|[<-|[<-|[]]]]; first [discriminate | reflexivity].
  - apply (proj1 (toggle_status_guards Sample.carol 3 db)). reflexivity.
Defined.

Lemma with_is_enabled_twice (x : User.t) :
  UserViewSet.with_is_enabled
    (UserViewSet.with_is_enabled x (negb (User.is_enabled x)))
    (negb (negb (User.is_enabled x))) = x.
Proof. destruct x. cbn. now rewrite negb_involutive. Qed.

(** X19: a toggle that goes through answers 200 with the new flag, the
    opposite of the old one, and changes nothing else of the account; and
    with unique keys in the user table, toggling the same account again
    puts the store back as it was. *)
Theorem toggle_status_twice_restores
    (u : User.t) (i : pk) (db : DB) (x : User.t) :
  NoDup (map User.id (users db)) ->
  find (fun y => User.id y =? i) (UserViewSet.get_queryset u db) = Some x ->
  i <> User.id u ->
  let once := UserViewSet.toggle_status u i db in
  let twice := UserViewSet.toggle_status u i (snd once) in
  fst once = mkResponse (Data (negb (User.is_enabled x))) HTTP_200_OK
  /\ find (fun y => User.id y =? i) (UserViewSet.get_queryset u (snd once))
     = Some (UserViewSet.with_is_enabled x (negb (User.is_enabled x)))
  /\ fst twice = mkResponse (Data (User.is_enabled x)) HTTP_200_OK
  /\ snd twice = db.
Proof.
  intros Hnd Hfind Hne. cbv zeta.
  destruct (toggle_find u i db x Hfind) as (Hin & Hid & Hvis).
  set (x' := UserViewSet.with_is_enabled x (negb (User.is_enabled x))).
  assert (Honce : UserViewSet.toggle_status u i db
                  = (mkResponse (Data (negb (User.is_enabled x))) HTTP_200_OK,
                     UserViewSet.save_user x' db)).
  { unfold UserViewSet.toggle_status. rewrite Hfind.
    assert (E : (User.id x =? User.id u) = false) by (apply Z.eqb_neq; lia).
    rewrite E. reflexivity. }
  rewrite Honce. cbn [fst snd].
  set (g := fun y => if User.id y =? User.id x' then x' else y).
  assert (Hg : forall y, In y (users db) ->
                 (User.id y = i -> y = x /\ g y = x')
                 /\ (User.id y <> i -> g y = y)).
  { intros y Hy. unfold g. cbn [x' User.id UserViewSet.with_is_enabled].
    split.
    - intros Hyi.
      assert (y = x)
        by (apply (nodup_map_injective User.id (users db)); congruence).
      subst y. now rewrite Z.eqb_refl.
    - intros Hyi. assert (E : (User.id y =? User.id x) = false)
        by (apply Z.eqb_neq; lia). now rewrite E. }
  assert (Hfind' : find (fun y => User.id y =? i)
                        (UserViewSet.get_queryset u (UserViewSet.save_user x' db))
                   = Some x').
  { destruct (find (fun y => User.id y =? i)
                   (UserViewSet.get_queryset u (UserViewSet.save_user x' db)))
      as [z|] eqn:E.
    - apply toggle_find in E. destruct E as (Hz & Hzi & _).
      cbn [users UserViewSet.save_user] in Hz. apply in_map_iff in Hz.
      destruct Hz as (y & Hgy & Hy). change (g y = z) in Hgy.
      destruct (Z.eq_dec (User.id y) i) as [Hyi|Hyi].
      + destruct (proj1 (Hg y Hy) Hyi) as [_ Hgx]. congruence.
      + rewrite (proj2 (Hg y Hy) Hyi) in Hgy. congruence.
    - exfalso. apply find_none with (x := x') in E.
      + cbn [x' User.id UserViewSet.with_is_enabled] in E.
        rewrite Hid, Z.eqb_refl in E. discriminate.
      + apply developers_are_hidden. split.
        * cbn [users UserViewSet.save_user]. apply in_map_iff. exists x.
          split; [|exact Hin]. change (g x = x'). now apply (Hg x Hin).
        * exact Hvis. }
  split; [reflexivity|]. split; [exact Hfind'|].
  unfold UserViewSet.toggle_status. rewrite Hfind'.
  assert (E : (User.id x' =? User.id u) = false)
    by (apply Z.eqb_neq; cbn; lia).
  rewrite E. cbn [fst snd].
  assert (Hback : UserViewSet.with_is_enabled x' (negb (User.is_enabled x')) = x)
    by apply with_is_enabled_twice.
  rewrite Hback. split.
  - reflexivity.
  - assert (Hmap : map (fun z => if User.id z =? User.id x then x else z)
                       (map g (users db)) = users db).
    { rewrite map_map. rewrite <- (map_id (users db)) at 2.
      apply map_ext_in. intros y Hy.
      destruct (Z.eq_dec (User.id y) i) as [Hyi|Hyi].
      - destruct (proj1 (Hg y Hy) Hyi) as [Hyx Hgy]. rewrite Hgy.
        cbn [x' User.id UserViewSet.with_is_enabled].
        now rewrite Z.eqb_refl.
      - rewrite (proj2 (Hg y Hy) Hyi).
        assert (E' : (User.id y =? User.id x) = false)
          by (apply Z.eqb_neq; lia).
        now rewrite E'. }
    unfold UserViewSet.save_user. cbn [users products cart_items orders
      order_items attendance_records restock_records].
    change (map (fun x0 => if User.id x0 =? User.id x' then x' else x0)
                (users db)) with (map g (users db)).
    rewrite Hmap. now destruct db.
Qed.

(** Carol, an Admin, disables Alice and enables her again. *)
Lemma toggle_status_twice_restores_witness :
  let once := UserViewSet.toggle_status Sample.carol 1 Sample.shop in
  let twice := UserViewSet.toggle_status Sample.carol 1 (snd once) in
  fst once = mkResponse (Data false) HTTP_200_OK
  /\ fst twice = mkResponse (Data true) HTTP_200_OK
  /\ snd twice = Sample.shop.
Proof.
  destruct (toggle_status_twice_restores Sample.carol 1 Sample.shop
              Sample.alice) as (H1 & _ & H3 & H4).
  - simpl. repeat constructor; simpl; intuition discriminate.
  - reflexivity.
  - discriminate.
  - repeat split; assumption.
Defined.

(** ** Orders: the listing *)

From Stdlib Require Import Permutation Sorted.

Lemma insert_newest_first_perm (o : Order.t) (l : list Order.t) :
  Permutation (OrderViewSet.insert_newest_first o l) (o :: l).
Proof.
  induction l as [|h l IH]; cbn [OrderViewSet.insert_newest_first];
    [reflexivity|].
  destruct (Order.order_date h <=? Order.order_date o); [reflexivity|].
  rewrite IH. apply perm_swap.
Qed.

Lemma newest_first_perm (l : list Order.t) :
  Permutation (OrderViewSet.newest_first l) l.
Proof.
  induction l as [|o l IH]; [reflexivity|].
  cbn [OrderViewSet.newest_first fold_right].
  rewrite insert_newest_first_perm. now constructor.
Qed.

Lemma insert_newest_first_sorted (o : Order.t) (l : list Order.t) :
  StronglySorted (fun a b => Order.order_date b <= Order.order_date a) l ->
  StronglySorted (fun a b => Order.order_date b <= Order.order_date a)
                 (OrderViewSet.insert_newest_first o l).
Proof.
  induction l as [|h l IH]; intros Hs; cbn [OrderViewSet.insert_newest_first].
  - repeat constructor.
  - inversion Hs as [|? ? Hl Hh]; subst.
    destruct (Z.leb_spec (Order.order_date h) (Order.order_date o)) as [Hle|Hlt].
    + constructor; [exact Hs|]. constructor; [exact Hle|].
      rewrite Forall_forall in *. intros b Hb. specialize (Hh b Hb). lia.
    + constructor; [now apply IH|].
      rewrite Forall_forall in *. intros b Hb.
      apply (Permutation_in _ (insert_newest_first_perm o l)) in Hb.
      destruct Hb as [<-|Hb]; [lia | now apply Hh].
Qed.

Lemma newest_first_sorted (l : list Order.t) :
  StronglySorted (fun a b => Order.order_date b <= Order.order_date a)
                 (OrderViewSet.newest_first l).
Proof.
  induction l as [|o l IH]; [constructor|].
  cbn [OrderViewSet.newest_first fold_right].
  now apply insert_newest_first_sorted.
Qed.

(** X20: the list of orders is sorted from the newest to the oldest; for
    who can manage the stock it holds every order of the ledger, each
    once; for the others it holds exactly the orders of the requesting
    user. *)
Theorem orders_are_listed_by_role (u : User.t) (db : DB) :
  let l := OrderViewSet.get_queryset u db in
  StronglySorted (fun a b => Order.order_date b <= Order.order_date a) l
  /\ (User.can_manage_stock u = true -> Permutation l (orders db))
  /\ (User.can_manage_stock u = false ->
      forall o, In o l <-> In o (orders db) /\ Order.user o = Some (User.id u)).
Proof.
  cbv zeta. unfold OrderViewSet.get_queryset.
  destruct (User.can_manage_stock u).
  - split; [apply newest_first_sorted|].
    split; [intros _; apply newest_first_perm | discriminate].
  - split; [apply newest_first_sorted|]. split; [discriminate|].
    intros _ o. split.
    + intros H. apply (Permutation_in _ (newest_first_perm _)) in H.
      apply filter_In in H. destruct H as [Hin Hu]. split; [exact Hin|].
      destruct (Order.user o) as [i|]; [|discriminate].
      apply Z.eqb_eq in Hu. now subst i.
    + intros [Hin Hu].
      apply (Permutation_in _ (Permutation_sym (newest_first_perm _))).
      apply filter_In. split; [exact Hin|]. rewrite Hu. apply Z.eqb_refl.
Qed.

Lemma orders_are_listed_by_role_witness :
  let db := snd (OrderViewSet.checkout Sample.alice 1000 Sample.shop_with_cart) in
  Permutation (OrderViewSet.get_queryset Sample.bob db) (orders db)
  /\ OrderViewSet.get_queryset Sample.alice db = orders db
  /\ (forall o, In o (OrderViewSet.get_queryset Sample.alice db) ->
        Order.user o = Some 1).
Proof.
  cbv zeta.
  set (db := snd (OrderViewSet.checkout Sample.alice 1000 Sample.shop_with_cart)).
  destruct (orders_are_listed_by_role Sample.bob db) as (_ & H2 & _).
  destruct (orders_are_listed_by_role Sample.alice db) as (_ & _ & H3).
  split; [now apply H2|]. split; [reflexivity|].
  intros o Ho. now apply (H3 eq_refl o).
Defined.

(** ** Reports, further *)

(** The report, field by field. *)
Lemma report_fields (now : datetime) (db : DB) :
  exists avg : Decimal,
    ReportsView.get now db
    = mkResponse
        (Data (ReportsView.mkReport
                 (ReportsView.or_zero (ReportsView.Sum (map Order.total (orders db))))
                 (Z.of_nat (List.length (orders db)))
                 avg
                 (ReportsView.or_zero
                    (ReportsView.Sum (map OrderItem.quantity (order_items db))))
                 (ReportsView.or_zero
                    (ReportsView.Sum
                       (map Order.total
                            (filter (fun o => now - timedelta_days 7
                                              <=? Order.order_date o)
                                    (orders db)))))
                 (firstn 10 (ReportsView.order_by_total_sold_desc
                               (ReportsView.group_by_product (order_items db))))))
        HTTP_200_OK.
Proof.
  unfold ReportsView.get.
  destruct (0 <? Z.of_nat (List.length (orders db))) eqn:E.
  - destruct (ddiv_defined
                (ReportsView.or_zero (ReportsView.Sum (map Order.total (orders db))))
                (Decimal_of_int (Z.of_nat (List.length (orders db)))))
      as [d Hd]; [apply Z.ltb_lt in E; simpl; lia|].
    rewrite Hd. now exists d.
  - now exists D0_00.
Qed.

Lemma filter_all {A : Type} (f : A -> bool) (l : list A) :
  (forall x, In x l -> f x = true) -> filter f l = l.
Proof.
  induction l as [|x l IH]; intros H; [reflexivity|]. cbn [filter].
  rewrite (H x (or_introl eq_refl)), IH; [reflexivity|].
  intros y Hy. apply H. now right.
Qed.

Lemma filter_none {A : Type} (f : A -> bool) (l : list A) :
  (forall x, In x l -> f x = false) -> filter f l = [].
Proof.
  induction l as [|x l IH]; intros H; [reflexivity|]. cbn [filter].
  rewrite (H x (or_introl eq_refl)). apply IH.
  intros y Hy. apply H. now right.
Qed.

(** X21: the sales of the last seven days are the total sales when no
    order is older than seven days, and 0.00 when every order is; and the
    number of orders reported is the number of rows of the ledger. *)
Theorem last_7_days_sales_window (now : datetime) (db : DB) :
  exists r : ReportsView.Report,
    ReportsView.get now db = mkResponse (Data r) HTTP_200_OK
    /\ ReportsView.total_orders r = Z.of_nat (List.length (orders db))
    /\ ((forall o, In o (orders db) -> now - 7 * 86400 <= Order.order_date o) ->
        ReportsView.last_7_days_sales r = ReportsView.total_sales r)
    /\ ((forall o, In o (orders db) -> Order.order_date o < now - 7 * 86400) ->
        ReportsView.last_7_days_sales r = D0_00).
Proof.
  destruct (report_fields now db) as [avg ->].
  eexists. split; [reflexivity|].
  cbn [ReportsView.total_orders ReportsView.last_7_days_sales
       ReportsView.total_sales].
  split; [reflexivity|]. unfold timedelta_days. split.
  - intros H. rewrite filter_all; [reflexivity|].
    intros o Ho. apply Z.leb_le. now apply H.
  - intros H. rewrite filter_none; [reflexivity|].
    intros o Ho. apply Z.leb_gt. now apply H.
Qed.

Lemma last_7_days_sales_window_witness :
  exists r : ReportsView.Report,
    ReportsView.get 2000
      (snd (OrderViewSet.checkout Sample.alice 1000 Sample.shop_with_cart))
    = mkResponse (Data r) HTTP_200_OK
    /\ ReportsView.last_7_days_sales r = ReportsView.total_sales r
    /\ ReportsView.total_orders r = 1.
Proof.
  destruct (last_7_days_sales_window 2000
              (snd (OrderViewSet.checkout Sample.alice 1000
                      Sample.shop_with_cart))) as (r & H1 & H2 & H3 & _).
  exists r. split; [exact H1|]. split; [|exact H2].
  apply H3. intros o [<-|[]]. vm_compute. discriminate.
Defined.

(** The name and emoji a row of the top products stands for. *)
Lemma add_to_group_keys (i : OrderItem.t) (groups : list ReportsView.TopProduct) :
  let key := fun g => (ReportsView.product_name g, ReportsView.product_emoji g) in
  let k := (OrderItem.product_name i, OrderItem.product_emoji i) in
  NoDup (map key groups) ->
  NoDup (map key (ReportsView.add_to_group i groups))
  /\ forall x, In x (map key (ReportsView.add_to_group i groups))
               <-> In x (map key groups) \/ x = k.
Proof.
  cbv zeta. induction groups as [|g groups IH]; intros Hnd.
  - cbn. split; [repeat constructor; tauto|]. intros x. intuition congruence.
  - cbn [ReportsView.add_to_group].
    destruct (String.eqb_spec (ReportsView.product_name g)
                              (OrderItem.product_name i)) as [En|En];
      [destruct (String.eqb_spec (ReportsView.product_emoji g)
                                 (OrderItem.product_emoji i)) as [Ee|Ee]|];
      cbn [andb map ReportsView.product_name ReportsView.product_emoji].
    + split; [exact Hnd|]. intros x. cbn [In]. rewrite En, Ee.
      intuition congruence.
    + cbn [map] in Hnd. apply NoDup_cons_iff in Hnd. destruct Hnd as [Hg Hl].
      destruct (IH Hl) as [IH1 IH2]. split.
      * constructor; [|exact IH1]. intros Hin. apply IH2 in Hin.
        destruct Hin as [Hin|Hin]; [contradiction | congruence].
      * intros x. cbn [In]. rewrite IH2. tauto.
    + cbn [map] in Hnd. apply NoDup_cons_iff in Hnd. destruct Hnd as [Hg Hl].
      destruct (IH Hl) as [IH1 IH2]. split.
      * constructor; [|exact IH1]. intros Hin. apply IH2 in Hin.
        destruct Hin as [Hin|Hin]; [contradiction | congruence].
      * intros x. cbn [In]. rewrite IH2. tauto.
Qed.

Lemma group_by_product_keys (l : list OrderItem.t) :
  let key := fun g => (ReportsView.product_name g, ReportsView.product_emoji g) in
  NoDup (map key (ReportsView.group_by_product l))
  /\ forall x, In x (map key (ReportsView.group_by_product l))
               <-> In x (map (fun i => (OrderItem.product_name i,
                                        OrderItem.product_emoji i)) l).
Proof.
  cbv zeta. unfold ReportsView.group_by_product.
  assert (H : forall (acc : list ReportsView.TopProduct),
            NoDup (map (fun g => (ReportsView.product_name g,
                                  ReportsView.product_emoji g)) acc) ->
            NoDup (map (fun g => (ReportsView.product_name g,
                                  ReportsView.product_emoji g))
                       (fold_left (fun groups i => ReportsView.add_to_group i groups)
                                  l acc))
            /\ forall x,
                 In x (map (fun g => (ReportsView.product_name g,
                                      ReportsView.product_emoji g))
                           (fold_left (fun groups i =>
                                         ReportsView.add_to_group i groups) l acc))
                 <-> In x (map (fun g => (ReportsView.product_name g,
                                          ReportsView.product_emoji g)) acc)
                     \/ In x (map (fun i => (OrderItem.product_name i,
                                             OrderItem.product_emoji i)) l)).
  { induction l as [|i l IH]; intros acc Hacc; cbn [fold_left map].
    - split; [exact Hacc|]. intros x. cbn [In]. tauto.
    - destruct (add_to_group_keys i acc Hacc) as [A1 A2].
      destruct (IH _ A1) as [B1 B2]. split; [exact B1|].
      intros x. rewrite B2, A2. cbn [In]. intuition congruence. }
  destruct (H [] ltac:(constructor)) as [H1 H2]. split; [exact H1|].
  intros x. rewrite H2. cbn [map In]. tauto.
Qed.

Lemma insert_desc_perm (g : ReportsView.TopProduct)
    (l : list ReportsView.TopProduct) :
  Permutation (ReportsView.insert_desc g l) (g :: l).
Proof.
  induction l as [|h l IH]; cbn [ReportsView.insert_desc]; [reflexivity|].
  destruct (dgt _ _); [reflexivity|]. rewrite IH. apply perm_swap.
Qed.

Lemma order_by_total_sold_desc_perm (l : list ReportsView.TopProduct) :
  Permutation (ReportsView.order_by_total_sold_desc l) l.
Proof.
  unfold ReportsView.order_by_total_sold_desc.
  assert (H : forall acc,
            Permutation (fold_left (fun sorted g => ReportsView.insert_desc g sorted)
                                   l acc) (acc ++ l)).
  { induction l as [|g l IH]; intros acc; cbn [fold_left].
    - now rewrite app_nil_r.
    - rewrite IH, insert_desc_perm. apply Permutation_middle. }
  apply (H []).
Qed.

Lemma in_firstn {A : Type} (n : nat) (l : list A) (x : A) :
  In x (firstn n l) -> In x l.
Proof.
  revert n. induction l as [|y l IH]; intros [|n]; cbn [firstn In]; try tauto.
  intros [->|H]; [now left | right; eauto].
Qed.

Lemma nodup_firstn {A : Type} (n : nat) (l : list A) :
  NoDup l -> NoDup (firstn n l).
Proof.
  revert n. induction l as [|x l IH]; intros [|n] H; cbn [firstn];
    try constructor.
  - apply NoDup_cons_iff in H. destruct H as [Hx _].
    intros Hin. apply Hx. now apply in_firstn in Hin.
  - apply IH. now apply NoDup_cons_iff in H.
Qed.

(** X22: the top products of the report are at most ten rows, no two of
    them for the same name and emoji, and each for a name and emoji that
    some order item carries. *)
Theorem top_products_are_distinct_groups (now : datetime) (db : DB) :
  exists r : ReportsView.Report,
    ReportsView.get now db = mkResponse (Data r) HTTP_200_OK
    /\ (List.length (ReportsView.top_products r) <= 10)%nat
    /\ NoDup (map (fun g => (ReportsView.product_name g,
                             ReportsView.product_emoji g))
                  (ReportsView.top_products r))
    /\ forall g, In g (ReportsView.top_products r) ->
         exists i, In i (order_items db)
                   /\ OrderItem.product_name i = ReportsView.product_name g
                   /\ OrderItem.product_emoji i = ReportsView.product_emoji g.
Proof.
  destruct (report_fields now db) as [avg ->].
  eexists. split; [reflexivity|]. cbn [ReportsView.top_products].
  destruct (group_by_product_keys (order_items db)) as [Hnd Hkeys].
  cbv zeta in *.
  pose proof (order_by_total_sold_desc_perm
                (ReportsView.group_by_product (order_items db))) as Hperm.
  split; [apply firstn_le_length|]. split.
  - rewrite <- firstn_map. apply nodup_firstn.
    apply (Permutation_NoDup (Permutation_sym (Permutation_map _ Hperm))).
    exact Hnd.
  - intros g Hg. apply in_firstn in Hg.
    apply (Permutation_in _ Hperm) in Hg.
    assert (Hk : In (ReportsView.product_name g, ReportsView.product_emoji g)
                    (map (fun i => (OrderItem.product_name i,
                                    OrderItem.product_emoji i))
                         (order_items db))).
    { apply Hkeys.
      apply (in_map (fun g => (ReportsView.product_name g,
                               ReportsView.product_emoji g)) _ g Hg). }
    apply in_map_iff in Hk. destruct Hk as (i & Hi & Hin).
    injection Hi as Hn He. now exists i.
Qed.

(** ** The seed command *)



(** ** Orders and their lines *)




